(** * RFM12 packet driver: a shallow embedding of [rfm12lib/rfm12.cpp]

    The development models the default build of the driver: receive mode
    enabled ([RFM12_TRANSMIT_ONLY] off), collision detection enabled
    ([RFM12_NOCOLLISIONDETECTION] off), header checksum enabled
    ([DISABLE_CHECKSUMM] undefined), return values enabled
    ([RFM12_NORETURNS] off), the full API ([RFM12_SMALLAPI] off), no power
    management shadow register, no UART debugging and no RFM12BP hooks.

    Bytes and counters are integers of [Z] with their wrap-around written out.
    The three global objects of the translation unit ([ctrl], [rf_tx_buffer],
    [rf_rx_buffers]) and the two function-local statics ([checksum] of the
    interrupt handler, [channel_free_count] of [rfm12_tick]) form the machine
    state, which every operation takes and returns.  The transceiver is the
    environment: it answers the reads of the driver from three scripts and
    records the commands the driver writes. *)

From Stdlib Require Import ZArith Bool Lia.
From stdpp Require Import base list.

Local Open Scope Z_scope.

(** ** Build configuration

    The constants below come from [rfm12_config.h], [rfm12_core.h] and
    [rfm12_hw.h], which the source includes; the driver is verified for every
    value of them, under the side conditions the theorems state. *)

Record config := Config {
  RFM12_TX_BUFFER_SIZE : Z;   (* size of rf_tx_buffer.buffer *)
  RFM12_RX_BUFFER_SIZE : Z;   (* size of rf_rx_buffers[i].buffer *)
  PACKET_OVERHEAD : Z;        (* header bytes counted by the receiver *)
  CHANNEL_FREE_TIME : Z;      (* ticks the channel has to stay clear *)
  SYNC_MSB : Z;
  SYNC_LSB : Z;
  PREAMBLE : Z;
  RFM12_STATUS_FFIT : Z;      (* fifo event bit of the 16 bit status word *)
  RFM12_STATUS_RSSI : Z;      (* carrier bit of the 16 bit status word *)
  counter_bits : Z            (* width of ctrl.num_bytes and ctrl.bytecount *)
}.

(** ** Data model *)

Inductive rfm12_state_t := STATE_RX_IDLE | STATE_RX_ACTIVE | STATE_TX.

Inductive status_t := STATUS_FREE | STATUS_OCCUPIED | STATUS_COMPLETE.

Inductive tx_retval := RFM12_TX_ENQUEUED | RFM12_TX_OCCUPIED | RFM12_TX_ERROR.

(** [rfm12_control_t], the fields this file uses. *)
Record rfm12_control_t := Control {
  rfm12_state : rfm12_state_t;
  txstate : status_t;
  num_bytes : Z;
  bytecount : Z;
  buffer_in_num : Z;
  buffer_out_num : Z
}.

(** [rf_tx_buffer_t]: the handler reads it as one byte array starting at
    [sync], so the order of the fields matters. *)
Record rf_tx_buffer_t := TxBuffer {
  tx_sync0 : Z;
  tx_sync1 : Z;
  tx_len : Z;
  tx_type : Z;
  tx_checksum : Z;
  tx_buffer : list Z
}.

(** [rf_rx_buffer_t]: the handler writes it as one byte array starting at
    [len]. *)
Record rf_rx_buffer_t := RxBuffer {
  rx_status : status_t;
  rx_len : Z;
  rx_type : Z;
  rx_checksum : Z;
  rx_buffer : list Z
}.

(** Commands written with [rfm12_data]. *)
Inductive bus_cmd :=
  | CMD_TX (b : Z)            (* RFM12_CMD_TX | b *)
  | CMD_PWRMGT_RECEIVE        (* PWRMGT_RECEIVE *)
  | CMD_PWRMGT_ET             (* RFM12_CMD_PWRMGT | PWRMGT_DEFAULT | RFM12_PWRMGT_ET *)
  | CMD_FIFORESET_CLEAR       (* RFM12_CMD_FIFORESET | CLEAR_FIFO_INLINE *)
  | CMD_FIFORESET_ACCEPT.     (* RFM12_CMD_FIFORESET | ACCEPT_DATA_INLINE *)

(** The transceiver as the driver sees it. *)
Record chip := Chip {
  int_flags : list Z;         (* answers to rfm12_read_int_flags_inline() *)
  fifo : list Z;              (* answers to rfm12_read(RFM12_CMD_READ) *)
  status_reg : list Z;        (* answers to rfm12_read(RFM12_CMD_STATUS) *)
  written : list bus_cmd;     (* commands written so far, oldest first *)
  int_enabled : bool          (* RFM12_INT_ON / RFM12_INT_OFF *)
}.

Record machine := Machine {
  ctrl : rfm12_control_t;
  rf_tx_buffer : rf_tx_buffer_t;
  rx_buffer0 : rf_rx_buffer_t;          (* rf_rx_buffers[0] *)
  rx_buffer1 : rf_rx_buffer_t;          (* rf_rx_buffers[1] *)
  checksum : Z;                         (* static local of the handler *)
  channel_free_count : Z;               (* static local of rfm12_tick *)
  bus : chip;
  past_tx_buffer : Z -> Z;              (* memory that follows rf_tx_buffer *)
  rx_overrun : bool                     (* ghost: a store left its slot *)
}.

(** ** Integer types *)

Definition u8 (x : Z) : Z := x mod 256.
Definition u16 (x : Z) : Z := x mod 65536.

Definition is_byte (x : Z) : Prop := 0 <= x < 256.

(** ** Field updates *)

Definition upd_ctrl (f : rfm12_control_t -> rfm12_control_t) (m : machine) : machine :=
  Machine (f (ctrl m)) (rf_tx_buffer m) (rx_buffer0 m) (rx_buffer1 m)
          (checksum m) (channel_free_count m) (bus m) (past_tx_buffer m) (rx_overrun m).

Definition set_rfm12_state (v : rfm12_state_t) : machine -> machine :=
  upd_ctrl (fun c => Control v (txstate c) (num_bytes c) (bytecount c)
                             (buffer_in_num c) (buffer_out_num c)).

Definition set_txstate (v : status_t) : machine -> machine :=
  upd_ctrl (fun c => Control (rfm12_state c) v (num_bytes c) (bytecount c)
                             (buffer_in_num c) (buffer_out_num c)).

Definition set_num_bytes (v : Z) : machine -> machine :=
  upd_ctrl (fun c => Control (rfm12_state c) (txstate c) v (bytecount c)
                             (buffer_in_num c) (buffer_out_num c)).

Definition set_bytecount (v : Z) : machine -> machine :=
  upd_ctrl (fun c => Control (rfm12_state c) (txstate c) (num_bytes c) v
                             (buffer_in_num c) (buffer_out_num c)).

Definition set_buffer_in_num (v : Z) : machine -> machine :=
  upd_ctrl (fun c => Control (rfm12_state c) (txstate c) (num_bytes c) (bytecount c)
                             v (buffer_out_num c)).

Definition set_buffer_out_num (v : Z) : machine -> machine :=
  upd_ctrl (fun c => Control (rfm12_state c) (txstate c) (num_bytes c) (bytecount c)
                             (buffer_in_num c) v).

Definition set_rf_tx_buffer (t : rf_tx_buffer_t) (m : machine) : machine :=
  Machine (ctrl m) t (rx_buffer0 m) (rx_buffer1 m)
          (checksum m) (channel_free_count m) (bus m) (past_tx_buffer m) (rx_overrun m).

Definition set_checksum (v : Z) (m : machine) : machine :=
  Machine (ctrl m) (rf_tx_buffer m) (rx_buffer0 m) (rx_buffer1 m)
          v (channel_free_count m) (bus m) (past_tx_buffer m) (rx_overrun m).

Definition set_channel_free_count (v : Z) (m : machine) : machine :=
  Machine (ctrl m) (rf_tx_buffer m) (rx_buffer0 m) (rx_buffer1 m)
          (checksum m) v (bus m) (past_tx_buffer m) (rx_overrun m).

Definition set_bus (b : chip) (m : machine) : machine :=
  Machine (ctrl m) (rf_tx_buffer m) (rx_buffer0 m) (rx_buffer1 m)
          (checksum m) (channel_free_count m) b (past_tx_buffer m) (rx_overrun m).

Definition set_rx_overrun (m : machine) : machine :=
  Machine (ctrl m) (rf_tx_buffer m) (rx_buffer0 m) (rx_buffer1 m)
          (checksum m) (channel_free_count m) (bus m) (past_tx_buffer m) true.

(** [rf_rx_buffers[i]]: the index is only ever 0 or 1 (see
    [buffer_index_ok]). *)
Definition rf_rx_buffers (i : Z) (m : machine) : rf_rx_buffer_t :=
  if i =? 0 then rx_buffer0 m else rx_buffer1 m.

Definition set_rf_rx_buffers (i : Z) (s : rf_rx_buffer_t) (m : machine) : machine :=
  if i =? 0
  then Machine (ctrl m) (rf_tx_buffer m) s (rx_buffer1 m)
               (checksum m) (channel_free_count m) (bus m) (past_tx_buffer m) (rx_overrun m)
  else Machine (ctrl m) (rf_tx_buffer m) (rx_buffer0 m) s
               (checksum m) (channel_free_count m) (bus m) (past_tx_buffer m) (rx_overrun m).

Definition set_rx_status (v : status_t) (s : rf_rx_buffer_t) : rf_rx_buffer_t :=
  RxBuffer v (rx_len s) (rx_type s) (rx_checksum s) (rx_buffer s).

(** ** Bus primitives *)

Definition RFM12_INT_OFF (m : machine) : machine :=
  let b := bus m in
  set_bus (Chip (int_flags b) (fifo b) (status_reg b) (written b) false) m.

Definition RFM12_INT_ON (m : machine) : machine :=
  let b := bus m in
  set_bus (Chip (int_flags b) (fifo b) (status_reg b) (written b) true) m.

(** [rfm12_data(cmd)]. *)
Definition rfm12_data (c : bus_cmd) (m : machine) : machine :=
  let b := bus m in
  set_bus (Chip (int_flags b) (fifo b) (status_reg b) (written b ++ [c]) (int_enabled b)) m.

(** [rfm12_read(RFM12_CMD_READ)], the next byte of the receive fifo; an
    exhausted script reads as 0. *)
Definition rfm12_read_fifo (m : machine) : Z * machine :=
  let b := bus m in
  match fifo b with
  | [] => (0, m)
  | x :: rest =>
      (x, set_bus (Chip (int_flags b) rest (status_reg b) (written b) (int_enabled b)) m)
  end.

(** [rfm12_read(RFM12_CMD_STATUS)], the 16 bit status word. *)
Definition rfm12_read_status (m : machine) : Z * machine :=
  let b := bus m in
  match status_reg b with
  | [] => (0, m)
  | x :: rest =>
      (x, set_bus (Chip (int_flags b) (fifo b) rest (written b) (int_enabled b)) m)
  end.

Definition set_int_flags (l : list Z) (m : machine) : machine :=
  let b := bus m in
  set_bus (Chip l (fifo b) (status_reg b) (written b) (int_enabled b)) m.

(** ** The driver *)

Section Driver.

Variable cfg : config.

(** Wrap-around of [ctrl.num_bytes] and [ctrl.bytecount]. *)
Definition ctr (x : Z) : Z := x mod 2 ^ counter_bits cfg.

(** [rf_tx_buffer.sync[i]]: the struct read as a byte array; an index past
    the payload array reads the memory that follows the struct. *)
Definition tx_byte_at (i : Z) (m : machine) : Z :=
  let t := rf_tx_buffer m in
  if i =? 0 then tx_sync0 t
  else if i =? 1 then tx_sync1 t
  else if i =? 2 then tx_len t
  else if i =? 3 then tx_type t
  else if i =? 4 then tx_checksum t
  else match tx_buffer t !! Z.to_nat (i - 5) with
       | Some b => b
       | None => past_tx_buffer m (i - 5 - Z.of_nat (length (tx_buffer t)))
       end.

(** [(&s.len)[off] = data]: the slot written as a byte array that starts at
    [len]; [None] when the store would land outside the struct. *)
Definition rx_store (off data : Z) (s : rf_rx_buffer_t) : option rf_rx_buffer_t :=
  if off =? 0 then Some (RxBuffer (rx_status s) data (rx_type s) (rx_checksum s) (rx_buffer s))
  else if off =? 1 then Some (RxBuffer (rx_status s) (rx_len s) data (rx_checksum s) (rx_buffer s))
  else if off =? 2 then Some (RxBuffer (rx_status s) (rx_len s) (rx_type s) data (rx_buffer s))
  else if (3 <=? off) && (off - 3 <? Z.of_nat (length (rx_buffer s)))
       then Some (RxBuffer (rx_status s) (rx_len s) (rx_type s) (rx_checksum s)
                           (<[Z.to_nat (off - 3) := data]> (rx_buffer s)))
       else None.

Definition rx_store_in (i off data : Z) (m : machine) : machine :=
  match rx_store off data (rf_rx_buffers i m) with
  | Some s => set_rf_rx_buffers i s m
  | None => set_rx_overrun m
  end.

(** [memcpy(dst, src, n)] for a source that holds at least [n] bytes. *)
Definition memcpy (dst src : list Z) (n : Z) : list Z :=
  take (Z.to_nat n) src ++ drop (Z.to_nat n) dst.

(** *** The interrupt handler *)

(** The code between the end of the [switch] and the label [no_fifo_reset]. *)
Definition fifo_reset (m : machine) : machine :=
  let m := set_rfm12_state STATE_RX_IDLE m in
  let m := rfm12_data CMD_FIFORESET_CLEAR m in
  rfm12_data CMD_FIFORESET_ACCEPT m.

(** [case STATE_RX_IDLE]. *)
Definition isr_rx_idle (m : machine) : machine :=
  let m := set_bytecount 1 m in
  let '(r, m) := rfm12_read_fifo m in
  let data := u8 r in
  let m := set_checksum data m in
  let m := set_num_bytes (ctr (data + PACKET_OVERHEAD cfg)) m in
  match rx_status (rf_rx_buffers (buffer_in_num (ctrl m)) m) with
  | STATUS_FREE =>
      let m := set_rfm12_state STATE_RX_ACTIVE m in
      let s := rf_rx_buffers (buffer_in_num (ctrl m)) m in
      set_rf_rx_buffers (buffer_in_num (ctrl m))
        (RxBuffer (rx_status s) data (rx_type s) (rx_checksum s) (rx_buffer s)) m
      (* goto no_fifo_reset *)
  | _ => fifo_reset m
  end.

(** [case STATE_RX_ACTIVE]. *)
Definition isr_rx_active (m : machine) : machine :=
  let '(r, m) := rfm12_read_fifo m in
  let data := u8 r in
  if bytecount (ctrl m) <? num_bytes (ctrl m) then
    let m := set_checksum (Z.lxor (checksum m) data) m in
    let m :=
      if bytecount (ctrl m) <? RFM12_RX_BUFFER_SIZE cfg + 3
      then rx_store_in (buffer_in_num (ctrl m)) (bytecount (ctrl m)) data m
      else m in
    if (bytecount (ctrl m) =? 2) && negb (checksum m =? 255)
    then fifo_reset m                                   (* break *)
    else set_bytecount (ctr (bytecount (ctrl m) + 1)) m (* goto no_fifo_reset *)
  else
    let i := buffer_in_num (ctrl m) in
    let m := set_rf_rx_buffers i (set_rx_status STATUS_COMPLETE (rf_rx_buffers i m)) m in
    let m := set_buffer_in_num (Z.lxor (buffer_in_num (ctrl m)) 1) m in
    fifo_reset m.

(** [case STATE_TX]. *)
Definition isr_tx (m : machine) : machine :=
  if bytecount (ctrl m) <? num_bytes (ctrl m) then
    let i := bytecount (ctrl m) in
    let m := set_bytecount (ctr (i + 1)) m in
    rfm12_data (CMD_TX (tx_byte_at i m)) m              (* goto no_fifo_reset *)
  else
    let m := set_txstate STATUS_FREE m in
    let m := rfm12_data CMD_PWRMGT_RECEIVE m in
    let m := rfm12_data (CMD_TX 170) m in
    fifo_reset m.

(** The body of [if (status & (RFM12_STATUS_FFIT>>8))]. *)
Definition isr_fifo_event (m : machine) : machine :=
  match rfm12_state (ctrl m) with
  | STATE_RX_IDLE => isr_rx_idle m
  | STATE_RX_ACTIVE => isr_rx_active m
  | STATE_TX => isr_tx m
  end.

Definition ffit (status : Z) : bool :=
  negb (Z.land (u8 status) (Z.shiftr (RFM12_STATUS_FFIT cfg) 8) =? 0).

(** The [do ... while (recheck_interrupt)] loop over the answers of the
    status register: it ends at the first answer without the fifo bit. *)
Fixpoint isr_loop (flags : list Z) (m : machine) : list Z * machine :=
  match flags with
  | [] => ([], m)
  | status :: rest =>
      if ffit status then isr_loop rest (isr_fifo_event m) else (rest, m)
  end.

(** [ISR(RFM12_INT_VECT)] / [rfm12_poll]. *)
Definition rfm12_poll (m : machine) : machine :=
  let m := RFM12_INT_OFF m in
  let '(rest, m) := isr_loop (int_flags (bus m)) m in
  let m := set_int_flags rest m in
  RFM12_INT_ON m.

(** *** The mainline operations *)

Definition carrier (status : Z) : bool :=
  negb (Z.land (u16 status) (RFM12_STATUS_RSSI cfg) =? 0).

(** The transmit arming of [rfm12_tick], the body of
    [if (ctrl.txstate == STATUS_OCCUPIED)]. *)
Definition tick_start_tx (m : machine) : machine :=
  let m := RFM12_INT_OFF m in
  let m := set_num_bytes (ctr (tx_len (rf_tx_buffer m) + 6)) m in
  let m := set_bytecount 0 m in
  let m := set_rfm12_state STATE_TX m in
  let m := rfm12_data (CMD_TX (PREAMBLE cfg)) m in
  let m := rfm12_data (CMD_TX (PREAMBLE cfg)) m in
  let m := rfm12_data CMD_PWRMGT_ET m in
  RFM12_INT_ON m.

Definition rfm12_tick (m : machine) : machine :=
  match rfm12_state (ctrl m) with
  | STATE_RX_IDLE =>
      let m := RFM12_INT_OFF m in
      let '(status, m) := rfm12_read_status m in
      let m := RFM12_INT_ON m in
      if carrier status then
        set_channel_free_count (u8 (CHANNEL_FREE_TIME cfg)) m
      else if negb (channel_free_count m =? 0) then
        set_channel_free_count (u8 (channel_free_count m - 1)) m
      else
        match txstate (ctrl m) with
        | STATUS_OCCUPIED => tick_start_tx m
        | _ => m
        end
  | _ => m
  end.

(** [rfm12_start_tx(type, length)]; both arguments are [uint8_t]. *)
Definition rfm12_start_tx (type length : Z) (m : machine) : tx_retval * machine :=
  match txstate (ctrl m) with
  | STATUS_FREE =>
      let t := rf_tx_buffer m in
      let m := set_rf_tx_buffer
                 (TxBuffer (tx_sync0 t) (tx_sync1 t) length type
                           (u8 (Z.lxor (Z.lxor length type) 255)) (tx_buffer t)) m in
      let m := set_txstate STATUS_OCCUPIED m in
      (RFM12_TX_ENQUEUED, m)
  | _ => (RFM12_TX_OCCUPIED, m)
  end.

(** [rfm12_tx(len, type, data)]; [data] is the memory the pointer points
    to. *)
Definition rfm12_tx (len type : Z) (data : list Z) (m : machine) : tx_retval * machine :=
  if RFM12_TX_BUFFER_SIZE cfg <? len then (RFM12_TX_ERROR, m)
  else
    match txstate (ctrl m) with
    | STATUS_FREE =>
        let t := rf_tx_buffer m in
        let m := set_rf_tx_buffer
                   (TxBuffer (tx_sync0 t) (tx_sync1 t) (tx_len t) (tx_type t)
                             (tx_checksum t) (memcpy (tx_buffer t) data len)) m in
        rfm12_start_tx type len m
    | _ => (RFM12_TX_OCCUPIED, m)
    end.

(** [rfm12_rx_clear()]. *)
Definition rfm12_rx_clear (m : machine) : machine :=
  let i := buffer_out_num (ctrl m) in
  let m := set_rf_rx_buffers i (set_rx_status STATUS_FREE (rf_rx_buffers i m)) m in
  set_buffer_out_num (Z.lxor (buffer_out_num (ctrl m)) 1) m.

(** The part of [rfm12_init()] that touches the driver's own state: the sync
    pattern and the two buffer indices. *)
Definition rfm12_init (m : machine) : machine :=
  let t := rf_tx_buffer m in
  let m := set_rf_tx_buffer
             (TxBuffer (SYNC_MSB cfg) (SYNC_LSB cfg) (tx_len t) (tx_type t)
                       (tx_checksum t) (tx_buffer t)) m in
  let m := set_buffer_in_num 0 m in
  let m := set_buffer_out_num 0 m in
  RFM12_INT_ON m.

End Driver.

(** ** Runs of the driver *)

Section Runs.

Variable cfg : config.

(** [k] fifo events handled one after the other. *)
Fixpoint handle (k : nat) (m : machine) : machine :=
  match k with
  | O => m
  | S k' => handle k' (isr_fifo_event cfg m)
  end.

(** [n] invocations of the interrupt handler. *)
Fixpoint run_polls (n : nat) (m : machine) : machine :=
  match n with
  | O => m
  | S n' => run_polls n' (rfm12_poll cfg m)
  end.

(** [n] calls of [rfm12_tick]. *)
Fixpoint run_ticks (n : nat) (m : machine) : machine :=
  match n with
  | O => m
  | S n' => run_ticks n' (rfm12_tick cfg m)
  end.

(** Number of answers of the status register that carry the fifo bit. *)
Fixpoint events (flags : list Z) : nat :=
  match flags with
  | [] => O
  | s :: rest => if ffit cfg s then S (events rest) else events rest
  end.

(** The fifo events one invocation of the handler takes, and the answers it
    leaves for the next invocation. *)
Fixpoint burst (flags : list Z) : nat :=
  match flags with
  | [] => O
  | s :: rest => if ffit cfg s then S (burst rest) else O
  end.

Fixpoint after_burst (flags : list Z) : list Z :=
  match flags with
  | [] => []
  | s :: rest => if ffit cfg s then after_burst rest else rest
  end.

End Runs.

(** The interrupt side of the chip: pending status answers and the mask. *)
Definition set_irq (l : list Z) (e : bool) (m : machine) : machine :=
  let b := bus m in
  set_bus (Chip l (fifo b) (status_reg b) (written b) e) m.

(** The bytes written to the transmit register, oldest first. *)
Fixpoint tx_bytes (l : list bus_cmd) : list Z :=
  match l with
  | [] => []
  | CMD_TX b :: rest => b :: tx_bytes rest
  | _ :: rest => tx_bytes rest
  end.

(** ** Well-formed states *)

(** The payload arrays have their declared sizes. *)
Definition tx_buffer_ok (cfg : config) (m : machine) : Prop :=
  length (tx_buffer (rf_tx_buffer m)) = Z.to_nat (RFM12_TX_BUFFER_SIZE cfg).

Definition rx_buffers_ok (cfg : config) (m : machine) : Prop :=
  0 <= RFM12_RX_BUFFER_SIZE cfg /\
  length (rx_buffer (rx_buffer0 m)) = Z.to_nat (RFM12_RX_BUFFER_SIZE cfg) /\
  length (rx_buffer (rx_buffer1 m)) = Z.to_nat (RFM12_RX_BUFFER_SIZE cfg).

(** [ctrl.buffer_in_num] designates one of the two slots. *)
Definition buffer_index_ok (m : machine) : Prop :=
  buffer_in_num (ctrl m) = 0 \/ buffer_in_num (ctrl m) = 1.

(** The two counters hold values of their type. *)
Definition counters_ok (cfg : config) (m : machine) : Prop :=
  0 <= bytecount (ctrl m) < 2 ^ counter_bits cfg /\
  0 <= num_bytes (ctrl m) < 2 ^ counter_bits cfg.

(** ** A concrete build and concrete states

    The values of the library's stock configuration: 30 byte buffers, the
    sync pattern 2D D4, 8 bit counters. *)

Definition stock : config :=
  Config 30 30 3 200 45 212 170 32768 256 8.

Definition idle_machine : machine :=
  Machine (Control STATE_RX_IDLE STATUS_FREE 0 0 0 0)
          (TxBuffer 45 212 0 0 0 (replicate 30 0))
          (RxBuffer STATUS_FREE 0 0 0 (replicate 30 0))
          (RxBuffer STATUS_FREE 0 0 0 (replicate 30 0))
          0 0 (Chip [] [] [] [] true) (fun _ => 0) false.

Definition with_chip (flags fifo_in status_in : list Z) (m : machine) : machine :=
  set_bus (Chip flags fifo_in status_in (written (bus m)) (int_enabled (bus m))) m.

(** A machine with a packet queued. *)
Definition queued_machine : machine :=
  snd (rfm12_tx stock 3 5 [1; 2; 3] idle_machine).

(** A machine whose slot 0 holds an unread packet. *)
Definition full_machine : machine :=
  set_rf_rx_buffers 0 (RxBuffer STATUS_COMPLETE 2 1 252 (replicate 30 7)) idle_machine.

(** [l] appended to the commands written so far. *)
Definition emit (l : list bus_cmd) (m : machine) : machine :=
  let b := bus m in
  set_bus (Chip (int_flags b) (fifo b) (status_reg b) (written b ++ l) (int_enabled b)) m.

(** The frame the handler sends for the queued packet: sync pattern, header,
    payload, the byte that follows the payload in memory, and the flush byte
    written after the transmitter is switched off. *)
Definition frame (sync0 sync1 len type : Z) (payload : list Z) (trailer : Z) : list Z :=
  [sync0; sync1; len; type; Z.lxor (Z.lxor len type) 255] ++ payload ++ [trailer; 170].

(** An idle machine whose chip will raise ten fifo events, as many as a
    packet of three payload bytes takes to transmit. *)
Definition tx_ready_machine : machine :=
  with_chip (replicate 10 128) [] [] idle_machine.

(** The receive fifo after some of its bytes were read. *)
Definition set_fifo (l : list Z) (m : machine) : machine :=
  let b := bus m in
  set_bus (Chip (int_flags b) l (status_reg b) (written b) (int_enabled b)) m.

(** The state after the length byte [len] opened a reception. *)
Definition rx_started (cfg : config) (len : Z) (rest : list Z) (m : machine) : machine :=
  let i := buffer_in_num (ctrl m) in
  let s := rf_rx_buffers i m in
  let m := set_fifo rest m in
  let m := set_checksum len m in
  let m := set_bytecount 1 m in
  let m := set_num_bytes (len + PACKET_OVERHEAD cfg) m in
  let m := set_rfm12_state STATE_RX_ACTIVE m in
  set_rf_rx_buffers i (RxBuffer (rx_status s) len (rx_type s) (rx_checksum s) (rx_buffer s)) m.

(** The state after a byte [b] of the packet was stored as [s']. *)
Definition rx_stored (b : Z) (s' : rf_rx_buffer_t) (rest : list Z) (m : machine) : machine :=
  let i := buffer_in_num (ctrl m) in
  let m := set_fifo rest m in
  let m := set_checksum (Z.lxor (checksum m) b) m in
  let m := set_bytecount (bytecount (ctrl m) + 1) m in
  set_rf_rx_buffers i s' m.

(** The state the handler reaches from [STATE_RX_IDLE] when the header
    [len; type; ck] passes the checksum test: the header is in the slot and
    the handler waits for the payload. *)
Definition rx_accepted (cfg : config) (len type ck : Z) (rest : list Z) (m : machine) : machine :=
  let i := buffer_in_num (ctrl m) in
  let s := rf_rx_buffers i m in
  let m := set_fifo rest m in
  let m := set_checksum (Z.lxor (Z.lxor len type) ck) m in
  let m := set_bytecount 3 m in
  let m := set_num_bytes (len + PACKET_OVERHEAD cfg) m in
  let m := set_rfm12_state STATE_RX_ACTIVE m in
  set_rf_rx_buffers i (RxBuffer (rx_status s) len type ck (rx_buffer s)) m.

(** The state it reaches when the header fails the test: the three header
    fields of the slot are overwritten, the fifo is reset. *)
Definition rx_rejected (cfg : config) (len type ck : Z) (rest : list Z) (m : machine) : machine :=
  let i := buffer_in_num (ctrl m) in
  let s := rf_rx_buffers i m in
  let m := set_fifo rest m in
  let m := set_checksum (Z.lxor (Z.lxor len type) ck) m in
  let m := set_bytecount 2 m in
  let m := set_num_bytes (len + PACKET_OVERHEAD cfg) m in
  let m := set_rf_rx_buffers i (RxBuffer (rx_status s) len type ck (rx_buffer s)) m in
  fifo_reset m.

(** The state after the payload bytes [bs] were stored behind the header. *)
Definition rx_filled (bs rest : list Z) (m : machine) : machine :=
  let i := buffer_in_num (ctrl m) in
  let s := rf_rx_buffers i m in
  let m := set_fifo rest m in
  let m := set_checksum (foldl Z.lxor (checksum m) bs) m in
  let m := set_bytecount (bytecount (ctrl m) + Z.of_nat (length bs)) m in
  set_rf_rx_buffers i
    (RxBuffer (rx_status s) (rx_len s) (rx_type s) (rx_checksum s)
              (bs ++ drop (length bs) (rx_buffer s))) m.

(** The state after the byte that follows the last payload byte arrived:
    the slot is complete and the other slot is the next to fill. *)
Definition rx_completed (rest : list Z) (m : machine) : machine :=
  let i := buffer_in_num (ctrl m) in
  let m := set_fifo rest m in
  let m := set_rf_rx_buffers i (set_rx_status STATUS_COMPLETE (rf_rx_buffers i m)) m in
  let m := set_buffer_in_num (Z.lxor i 1) m in
  fifo_reset m.

(** The bytes a transmission wrote to the transmit register: what [after]
    logged beyond [before]. *)
Definition sent_between (before after : machine) : list Z :=
  drop (length (tx_bytes (written (bus before)))) (tx_bytes (written (bus after))).

(** An idle receiver whose chip delivers the bytes [fed], one fifo event
    each. *)
Definition rx_ready_machine (fed : list Z) : machine :=
  with_chip (replicate (length fed) 128) fed [] idle_machine.

(** The fields of [ctrl] that drive the protocol are the same in [m']. *)
Definition same_protocol_fields (m m' : machine) : Prop :=
  rfm12_state (ctrl m') = rfm12_state (ctrl m) /\
  bytecount (ctrl m') = bytecount (ctrl m) /\
  num_bytes (ctrl m') = num_bytes (ctrl m) /\
  buffer_in_num (ctrl m') = buffer_in_num (ctrl m).

(** A transmit request pending in [m] is still pending in [m']. *)
Definition no_release (m m' : machine) : Prop :=
  txstate (ctrl m) <> STATUS_FREE -> txstate (ctrl m') = txstate (ctrl m).

(** A machine with a packet queued whose first tick sees a carrier; the
    channel is clear afterwards. *)
Definition carrier_machine : machine :=
  with_chip [] [] [256] queued_machine.

(** No store has left its slot so far, the payload arrays have their
    declared sizes and the byte counter is not negative. *)
Definition rx_safe (cfg : config) (m : machine) : Prop :=
  rx_buffers_ok cfg m /\ rx_overrun m = false /\ 0 <= bytecount (ctrl m).

(** A receiver with an unread packet in slot 0 to which four more bytes are
    delivered over two invocations of the handler. *)
Definition full_rx_machine : machine :=
  with_chip [128; 128; 0; 128] [4; 1; 250; 9] [] full_machine.

(** A receiver to which a packet is delivered whose length byte, 40,
    advertises more bytes than a slot holds. *)
Definition long_packet_machine : machine :=
  rx_ready_machine (40 :: 7 :: 208 :: replicate 41 1).

(** ** Sequences of calls

    The entry points of the driver, to state what holds however mainline
    code and the interrupt interleave them. *)
Inductive call :=
  | CallPoll
  | CallTick
  | CallTx (len type : Z) (data : list Z)
  | CallStartTx (type len : Z)
  | CallRxClear.

Definition exec (cfg : config) (c : call) (m : machine) : machine :=
  match c with
  | CallPoll => rfm12_poll cfg m
  | CallTick => rfm12_tick cfg m
  | CallTx len type data => snd (rfm12_tx cfg len type data m)
  | CallStartTx type len => snd (rfm12_start_tx type len m)
  | CallRxClear => rfm12_rx_clear m
  end.

Fixpoint run_calls (cfg : config) (l : list call) (m : machine) : machine :=
  match l with
  | [] => m
  | c :: rest => run_calls cfg rest (exec cfg c m)
  end.

(** Both slot indices designate one of the two slots. *)
Definition indices_ok (m : machine) : Prop :=
  (buffer_in_num (ctrl m) = 0 \/ buffer_in_num (ctrl m) = 1) /\
  (buffer_out_num (ctrl m) = 0 \/ buffer_out_num (ctrl m) = 1).

(** What a receiver is fed for one packet: header, payload and the byte
    that follows the payload on the air. *)
Definition rx_frame (len type : Z) (payload : list Z) (trailer : Z) : list Z :=
  [len; type; Z.lxor (Z.lxor len type) 255] ++ payload ++ [trailer].

(** The state after a whole frame was received from [STATE_RX_IDLE]. *)
Definition rx_received (cfg : config) (len type : Z) (payload : list Z) (rest : list Z)
    (r : machine) : machine :=
  rx_completed rest
    (rx_filled payload (0 :: rest)
       (rx_accepted cfg len type (Z.lxor (Z.lxor len type) 255) (payload ++ 0 :: rest) r)).

(** A packet that fits a receive slot. *)
Definition packet_ok (cfg : config) (len type : Z) (payload : list Z) : Prop :=
  is_byte len /\ is_byte type /\ Forall is_byte payload /\
  length payload = Z.to_nat len /\ len <= RFM12_RX_BUFFER_SIZE cfg.

(** The state after the bytes [bs] were counted without being stored. *)
Definition rx_skipped (bs rest : list Z) (m : machine) : machine :=
  let m := set_fifo rest m in
  let m := set_checksum (foldl Z.lxor (checksum m) bs) m in
  set_bytecount (bytecount (ctrl m) + Z.of_nat (length bs)) m.

(** A machine with a packet queued, as after reset: the countdown of
    [rfm12_tick] starts at 16. *)
Definition boot_machine : machine :=
  set_channel_free_count 16 queued_machine.

(** A receiver to which two packets are delivered back to back. *)
Definition two_frames_machine : machine :=
  rx_ready_machine (rx_frame 2 1 [7; 8] 0 ++ rx_frame 1 3 [9] 0).

(** A receiver to which one packet is delivered. *)
Definition one_frame_machine : machine :=
  rx_ready_machine (rx_frame 2 1 [7; 8] 0).

(** A receiver in the middle of a packet. *)
Definition active_machine : machine :=
  isr_fifo_event stock long_packet_machine.

(** An idle machine with nothing queued that sees a carrier on its first
    tick. *)
Definition listening_machine : machine :=
  with_chip [] [] [256; 0; 0] idle_machine.

(** * Properties *)

Arguments u8 : simpl never.
Arguments u16 : simpl never.
Arguments ctr : simpl never.

(** ** The handler and the interrupt loop *)

(** Unfolding of the state accessors and of the bus primitives. *)
Ltac state_unfold :=
  cbv beta iota zeta delta
    [fifo_reset rx_store_in
     rfm12_read_fifo rfm12_read_status rfm12_data RFM12_INT_ON RFM12_INT_OFF
     set_irq set_int_flags set_bus set_rx_overrun set_channel_free_count
     set_checksum set_rf_tx_buffer set_buffer_out_num set_buffer_in_num
     set_bytecount set_num_bytes set_txstate set_rfm12_state upd_ctrl
     rf_rx_buffers set_rf_rx_buffers set_rx_status with_chip set_fifo emit
     rx_accepted rx_rejected rx_filled rx_completed rx_started rx_stored
     ctrl rf_tx_buffer rx_buffer0 rx_buffer1 checksum channel_free_count bus
     past_tx_buffer rx_overrun
     rfm12_state txstate num_bytes bytecount buffer_in_num buffer_out_num
     int_flags fifo status_reg written int_enabled].

(** The same, with the bodies of the handler's cases. *)
Ltac driver_unfold :=
  cbv beta iota zeta delta [isr_fifo_event isr_rx_idle isr_rx_active isr_tx];
  state_unfold.

(** Case analysis on the tests of the handler, innermost test first. *)
Ltac plain_test c :=
  lazymatch c with
  | context [if _ then _ else _] => fail
  | context [match _ with _ => _ end] => fail
  | _ => idtac
  end.

Ltac driver_cases :=
  repeat (driver_unfold;
          match goal with
          | |- context [if ?c then _ else _] => plain_test c; destruct c eqn:?
          | |- context [match rx_store ?a ?b ?s with _ => _ end] =>
              plain_test (rx_store a b s); destruct (rx_store a b s) eqn:?
          | |- context [match rx_status ?s with _ => _ end] =>
              plain_test s; destruct (rx_status s) eqn:?
          end);
  driver_unfold.

Lemma isr_fifo_event_irq cfg l e m :
  isr_fifo_event cfg (set_irq l e m) = set_irq l e (isr_fifo_event cfg m).
Proof.
  destruct m as [[st tx nb bc bi bo] t r0 r1 ck cf [fl ff sr w ie] p o].
  destruct st; destruct ff as [|x ff]; driver_cases; reflexivity.
Qed.

Lemma handle_irq cfg k l e m :
  handle cfg k (set_irq l e m) = set_irq l e (handle cfg k m).
Proof.
  revert m; induction k as [|k IH]; intros m; simpl; [reflexivity|].
  rewrite isr_fifo_event_irq; apply IH.
Qed.

Lemma handle_add cfg a b m :
  handle cfg (a + b) m = handle cfg b (handle cfg a m).
Proof.
  revert m; induction a as [|a IH]; intros m; simpl; [reflexivity|apply IH].
Qed.

Lemma isr_loop_burst cfg flags m :
  isr_loop cfg flags m = (after_burst cfg flags, handle cfg (burst cfg flags) m).
Proof.
  revert m; induction flags as [|s rest IH]; intros m; simpl; [reflexivity|].
  destruct (ffit cfg s); [apply IH|reflexivity].
Qed.

Lemma events_burst cfg flags :
  events cfg flags = (burst cfg flags + events cfg (after_burst cfg flags))%nat.
Proof.
  induction flags as [|s rest IH]; simpl; [reflexivity|].
  destruct (ffit cfg s); simpl; [rewrite IH|]; reflexivity.
Qed.

Lemma after_burst_length cfg flags :
  (length (after_burst cfg flags) <= pred (length flags))%nat.
Proof.
  induction flags as [|s rest IH]; simpl; [lia|].
  destruct (ffit cfg s); lia.
Qed.

(** One invocation of the handler takes the leading run of fifo events. *)
Lemma rfm12_poll_handle cfg m :
  rfm12_poll cfg m =
  set_irq (after_burst cfg (int_flags (bus m))) true
          (handle cfg (burst cfg (int_flags (bus m))) m).
Proof.
  unfold rfm12_poll.
  change (int_flags (bus (RFM12_INT_OFF m))) with (int_flags (bus m)).
  rewrite isr_loop_burst.
  change (RFM12_INT_OFF m) with (set_irq (int_flags (bus m)) false m).
  rewrite handle_irq. reflexivity.
Qed.

(** However the fifo events are spread over the invocations of the handler,
    the invocations together handle each of them once, in order. *)
Lemma run_polls_handle cfg n m :
  (length (int_flags (bus m)) <= S n)%nat ->
  run_polls cfg (S n) m =
  set_irq [] true (handle cfg (events cfg (int_flags (bus m))) m).
Proof.
  revert m; induction n as [|n IH]; intros m Hlen.
  - simpl. rewrite rfm12_poll_handle, events_burst.
    pose proof (after_burst_length cfg (int_flags (bus m))) as Hr.
    destruct (after_burst cfg (int_flags (bus m))) as [|x r] eqn:E;
      [|simpl in Hr; lia].
    simpl. rewrite Nat.add_0_r. reflexivity.
  - change (run_polls cfg (S (S n)) m) with (run_polls cfg (S n) (rfm12_poll cfg m)).
    rewrite rfm12_poll_handle.
    pose proof (after_burst_length cfg (int_flags (bus m))) as Hr.
    rewrite IH by (simpl; lia).
    change (int_flags (bus (set_irq ?l ?e ?x))) with l.
    rewrite handle_irq, <- handle_add, <- events_burst. reflexivity.
Qed.

(** A run of invocations is a run of fifo events, whatever the answers. *)
Lemma run_polls_some_handle cfg n m :
  exists k l e, run_polls cfg n m = set_irq l e (handle cfg k m).
Proof.
  revert m; induction n as [|n IH]; intros m.
  - exists O, (int_flags (bus m)), (int_enabled (bus m)).
    destruct m as [c t r0 r1 ck cf [fl ff sr w ie] p o]; reflexivity.
  - simpl. rewrite rfm12_poll_handle.
    destruct (IH (set_irq (after_burst cfg (int_flags (bus m))) true
                          (handle cfg (burst cfg (int_flags (bus m))) m)))
      as (k & l & e & Hk).
    exists (burst cfg (int_flags (bus m)) + k)%nat, l, e.
    rewrite Hk, handle_irq, handle_add. reflexivity.
Qed.

(** ** Transmission *)

Lemma tx_byte_at_ext i m m' :
  rf_tx_buffer m' = rf_tx_buffer m ->
  past_tx_buffer m' = past_tx_buffer m ->
  tx_byte_at i m' = tx_byte_at i m.
Proof. intros H1 H2; unfold tx_byte_at; rewrite H1, H2; reflexivity. Qed.

Lemma ctr_small cfg x : 0 <= x < 2 ^ counter_bits cfg -> ctr cfg x = x.
Proof. intros H; unfold ctr; apply Z.mod_small; exact H. Qed.

Lemma u8_small x : is_byte x -> u8 x = x.
Proof. intros H; unfold u8; apply Z.mod_small; exact H. Qed.

(** While bytes remain, each fifo event in [STATE_TX] writes the next byte
    of the buffer struct to the transmit register. *)
Lemma handle_tx_bytes cfg k m :
  rfm12_state (ctrl m) = STATE_TX ->
  0 <= bytecount (ctrl m) ->
  bytecount (ctrl m) + Z.of_nat k <= num_bytes (ctrl m) ->
  num_bytes (ctrl m) < 2 ^ counter_bits cfg ->
  handle cfg k m =
  emit (map (fun j => CMD_TX (tx_byte_at j m))
            (seqZ (bytecount (ctrl m)) (Z.of_nat k)))
       (set_bytecount (bytecount (ctrl m) + Z.of_nat k) m).
Proof.
  revert m; induction k as [|k IH]; intros m Hst H0 Hle Hnb.
  - destruct m as [[st tx nb bc bi bo] t r0 r1 ck cf [fl ff sr w ie] p o].
    simpl. unfold emit. driver_unfold. rewrite Z.add_0_r, app_nil_r. reflexivity.
  - destruct m as [[st tx nb bc bi bo] t r0 r1 ck cf [fl ff sr w ie] p o].
    simpl in Hst, H0, Hle, Hnb; subst st.
    simpl handle. unfold isr_fifo_event, isr_tx. simpl ctrl.
    cbv beta iota delta [bytecount num_bytes rfm12_state].
    destruct (Z.ltb_spec bc nb); [|clear Hnb; lia].
    rewrite ctr_small by lia.
    rewrite IH; [| reflexivity | simpl; lia | simpl; lia | simpl; lia ].
    unfold emit. driver_unfold.
    rewrite Nat2Z.inj_succ, (seqZ_cons bc) by lia. simpl map.
    replace (Z.pred (Z.succ (Z.of_nat k))) with (Z.of_nat k) by lia.
    rewrite <- app_assoc. simpl app.
    replace (bc + 1 + Z.of_nat k) with (bc + Z.succ (Z.of_nat k)) by lia.
    replace (Z.succ bc) with (bc + 1) by lia.
    reflexivity.
Qed.

Lemma tx_payload_bytes m a pre post :
  tx_buffer (rf_tx_buffer m) = a ++ pre ++ post ->
  map (fun j => tx_byte_at j m)
      (seqZ (5 + Z.of_nat (length a)) (Z.of_nat (length pre))) = pre.
Proof.
  revert a; induction pre as [|x pre IH]; intros a Hbuf; [reflexivity|].
  simpl length. rewrite Nat2Z.inj_succ, seqZ_cons by lia. simpl map. f_equal.
  - unfold tx_byte_at.
    repeat match goal with
           | |- context [?a =? ?b] => destruct (Z.eqb_spec a b); [lia|]
           end.
    replace (Z.to_nat (5 + Z.of_nat (length a) - 5)) with (length a) by lia.
    rewrite Hbuf. change ((x :: pre) ++ post) with (x :: (pre ++ post)).
    rewrite list_lookup_middle by reflexivity. reflexivity.
  - replace (Z.pred (Z.succ (Z.of_nat (length pre)))) with (Z.of_nat (length pre)) by lia.
    replace (Z.succ (5 + Z.of_nat (length a)))
      with (5 + Z.of_nat (length (a ++ [x]))) by (rewrite length_app; simpl; lia).
    apply IH. rewrite <- app_assoc. exact Hbuf.
Qed.

Lemma tx_bytes_app a b : tx_bytes (a ++ b) = tx_bytes a ++ tx_bytes b.
Proof.
  induction a as [|c a IH]; [reflexivity|].
  destruct c; simpl; rewrite IH; reflexivity.
Qed.

Lemma tx_bytes_map l : tx_bytes (map CMD_TX l) = l.
Proof. induction l as [|x l IH]; simpl; [|rewrite IH]; reflexivity. Qed.

(** The whole transmission of an armed machine: [num_bytes] bytes of the
    buffer struct, then the switch back to receive mode. *)
Lemma handle_transmit cfg m :
  rfm12_state (ctrl m) = STATE_TX ->
  bytecount (ctrl m) = 0 ->
  0 <= num_bytes (ctrl m) < 2 ^ counter_bits cfg ->
  handle cfg (Z.to_nat (num_bytes (ctrl m)) + 1) m =
  fifo_reset
    (rfm12_data (CMD_TX 170)
       (rfm12_data CMD_PWRMGT_RECEIVE
          (set_txstate STATUS_FREE
             (emit (map (fun j => CMD_TX (tx_byte_at j m))
                        (seqZ 0 (num_bytes (ctrl m))))
                   (set_bytecount (num_bytes (ctrl m)) m))))).
Proof.
  intros Hst Hbc Hnb.
  rewrite handle_add, (handle_tx_bytes cfg (Z.to_nat (num_bytes (ctrl m))) m);
    rewrite ?Hbc; try lia; try assumption.
  rewrite Z2Nat.id, Z.add_0_l by lia.
  destruct m as [[st tx nb bc bi bo] t r0 r1 ck cf [fl ff sr w ie] p o].
  simpl in Hst, Hbc, Hnb; subst st bc.
  simpl handle. unfold emit, isr_fifo_event, isr_tx. driver_unfold.
  rewrite Z.ltb_irrefl. reflexivity.
Qed.

(** Exclusive or of two bytes is a byte. *)
Lemma lxor_byte a b : is_byte a -> is_byte b -> is_byte (Z.lxor a b).
Proof.
  unfold is_byte; intros Ha Hb.
  assert (Hn : 0 <= Z.lxor a b) by (apply Z.lxor_nonneg; lia).
  split; [exact Hn|].
  assert (Hs : Z.shiftr (Z.lxor a b) 8 = 0).
  { rewrite Z.shiftr_lxor, !Z.shiftr_div_pow2 by lia.
    change (2 ^ 8) with 256.
    rewrite (Z.div_small a), (Z.div_small b) by lia. reflexivity. }
  rewrite Z.shiftr_div_pow2 in Hs by lia. change (2 ^ 8) with 256 in Hs.
  apply Z.div_small_iff in Hs; lia.
Qed.

Lemma carrier_0 cfg : carrier cfg 0 = false.
Proof. unfold carrier, u16. rewrite Z.mod_0_l by lia. reflexivity. Qed.

Lemma seqZ_frame len :
  0 <= len ->
  seqZ 0 (len + 6) = [0; 1; 2; 3; 4] ++ seqZ 5 len ++ [len + 5].
Proof.
  intros Hlen.
  replace (len + 6) with (5 + (len + 1)) by lia.
  rewrite seqZ_app, (seqZ_app (0 + 5) len 1) by lia.
  replace (0 + 5 + len) with (len + 5) by lia.
  rewrite (seqZ_cons (len + 5)), (seqZ_nil _ (Z.pred 1)) by lia. reflexivity.
Qed.

(** Enqueue, arm, transmit: the commands the chip receives, in order. *)
Lemma transmit_written cfg m type len data :
  is_byte type -> is_byte len ->
  len <= RFM12_TX_BUFFER_SIZE cfg ->
  RFM12_TX_BUFFER_SIZE cfg + 6 < 2 ^ counter_bits cfg ->
  (Z.to_nat len <= length data)%nat ->
  rfm12_state (ctrl m) = STATE_RX_IDLE ->
  txstate (ctrl m) = STATUS_FREE ->
  channel_free_count m = 0 ->
  carrier cfg (hd 0 (status_reg (bus m))) = false ->
  events cfg (int_flags (bus m)) = (Z.to_nat (len + 6) + 1)%nat ->
  let queued := snd (rfm12_tx cfg len type data m) in
  let final := run_polls cfg (length (int_flags (bus m))) (rfm12_tick cfg queued) in
  fst (rfm12_tx cfg len type data m) = RFM12_TX_ENQUEUED /\
  written (bus final) =
    written (bus m)
    ++ [CMD_TX (PREAMBLE cfg); CMD_TX (PREAMBLE cfg); CMD_PWRMGT_ET]
    ++ map CMD_TX ([tx_sync0 (rf_tx_buffer m); tx_sync1 (rf_tx_buffer m);
                    len; type; Z.lxor (Z.lxor len type) 255]
                   ++ take (Z.to_nat len) data
                   ++ [tx_byte_at (len + 5) queued])
    ++ [CMD_PWRMGT_RECEIVE; CMD_TX 170; CMD_FIFORESET_CLEAR; CMD_FIFORESET_ACCEPT] /\
  rfm12_state (ctrl final) = STATE_RX_IDLE /\
  txstate (ctrl final) = STATUS_FREE.
Proof.
  intros Hty Hlb Hcap Hfit Hdata Hst Htx Hcf Hcar Hev queued final.
  destruct m as [[st tx nb bc bi bo] [s0 s1 l0 t0 c0 buf] r0 r1 ck cf [fl ff sr w ie] p o].
  simpl in Hst, Htx, Hcf, Hcar; cbn [bus int_flags] in Hev; subst st tx cf.
  assert (Hck : is_byte (Z.lxor (Z.lxor len type) 255))
    by (apply lxor_byte; [apply lxor_byte; assumption|unfold is_byte; lia]).
  assert (Hq : queued =
    Machine (Control STATE_RX_IDLE STATUS_OCCUPIED nb bc bi bo)
            (TxBuffer s0 s1 len type (Z.lxor (Z.lxor len type) 255) (memcpy buf data len))
            r0 r1 ck 0 (Chip fl ff sr w ie) p o).
  { unfold queued, rfm12_tx, rfm12_start_tx. driver_unfold.
    destruct (Z.ltb_spec (RFM12_TX_BUFFER_SIZE cfg) len); [lia|].
    simpl. rewrite u8_small by assumption. reflexivity. }
  assert (Hret : fst (rfm12_tx cfg len type data
                        (Machine (Control STATE_RX_IDLE STATUS_FREE nb bc bi bo)
                                 (TxBuffer s0 s1 l0 t0 c0 buf)
                                 r0 r1 ck 0 (Chip fl ff sr w ie) p o))
                 = RFM12_TX_ENQUEUED).
  { unfold rfm12_tx, rfm12_start_tx. driver_unfold.
    destruct (Z.ltb_spec (RFM12_TX_BUFFER_SIZE cfg) len); [lia|]. reflexivity. }
  assert (Htick : rfm12_tick cfg queued =
    Machine (Control STATE_TX STATUS_OCCUPIED (len + 6) 0 bi bo)
            (TxBuffer s0 s1 len type (Z.lxor (Z.lxor len type) 255) (memcpy buf data len))
            r0 r1 ck 0
            (Chip fl ff (tail sr)
                  (w ++ [CMD_TX (PREAMBLE cfg); CMD_TX (PREAMBLE cfg); CMD_PWRMGT_ET])
                  true) p o).
  { rewrite Hq. unfold rfm12_tick, tick_start_tx. driver_unfold.
    unfold is_byte in Hlb.
    destruct sr as [|s sr]; simpl hd in Hcar; rewrite ?carrier_0, ?Hcar; simpl;
      rewrite ctr_small by lia; rewrite <- !app_assoc; reflexivity. }
  destruct fl as [|f fl]; [simpl in Hev; lia|].
  assert (Hfin : final =
    set_irq [] true (handle cfg (Z.to_nat (len + 6) + 1) (rfm12_tick cfg queued))).
  { unfold final. cbn [bus int_flags length].
    rewrite run_polls_handle by (rewrite Htick; simpl; lia).
    replace (int_flags (bus (rfm12_tick cfg queued))) with (f :: fl)
      by (rewrite Htick; reflexivity).
    rewrite Hev. reflexivity. }
  clearbody final; subst final.
  replace (Z.to_nat (len + 6)) with
    (Z.to_nat (num_bytes (ctrl (rfm12_tick cfg queued)))) by (rewrite Htick; reflexivity).
  unfold is_byte in Hlb.
  rewrite handle_transmit by (rewrite Htick; simpl; first [reflexivity | lia]).
  split; [exact Hret|].
  assert (Hbytes :
    map (fun j => CMD_TX (tx_byte_at j (rfm12_tick cfg queued))) (seqZ 0 (len + 6)) =
    map CMD_TX ([s0; s1; len; type; Z.lxor (Z.lxor len type) 255]
                ++ take (Z.to_nat len) data ++ [tx_byte_at (len + 5) queued])).
  { rewrite seqZ_frame by lia. rewrite !map_app. f_equal; [rewrite Htick; reflexivity|].
    f_equal.
    - rewrite <- (map_map (fun j => tx_byte_at j (rfm12_tick cfg queued)) CMD_TX).
      f_equal.
      replace len with (Z.of_nat (length (take (Z.to_nat len) data))) at 1
        by (rewrite length_take; lia).
      apply (tx_payload_bytes _ [] _ (drop (Z.to_nat len) buf)).
      rewrite Htick. reflexivity.
    - simpl. do 2 f_equal. apply tx_byte_at_ext; rewrite Htick, Hq; reflexivity. }
  replace (num_bytes (ctrl (rfm12_tick cfg queued))) with (len + 6)
    by (rewrite Htick; reflexivity).
  rewrite Hbytes, Htick. unfold emit. driver_unfold.
  split; [|split; reflexivity].
  rewrite <- !app_assoc. reflexivity.
Qed.

(** C1. For every type byte and every length up to the capacity of the
    transmit buffer (the capacity plus the six framing bytes fitting the byte
    counter), [rfm12_tx] enqueues the packet and, once [rfm12_tick] has armed
    the transmission on a clear channel, the interrupt handler writes to the
    transmit register, after the two preamble bytes of the tick, exactly the
    two sync bytes, the length, the type, the checksum
    [length xor type xor 0xFF], the [length] payload bytes in order, and only
    then the trailer (one byte from the buffer memory and the flush byte
    0xAA).  This holds however the fifo events are spread over the
    invocations of the handler. *)
Theorem tx_wire_format cfg m type len data :
  is_byte type -> is_byte len ->
  len <= RFM12_TX_BUFFER_SIZE cfg ->
  RFM12_TX_BUFFER_SIZE cfg + 6 < 2 ^ counter_bits cfg ->
  (Z.to_nat len <= length data)%nat ->
  tx_sync0 (rf_tx_buffer m) = SYNC_MSB cfg ->
  tx_sync1 (rf_tx_buffer m) = SYNC_LSB cfg ->
  rfm12_state (ctrl m) = STATE_RX_IDLE ->
  txstate (ctrl m) = STATUS_FREE ->
  channel_free_count m = 0 ->
  carrier cfg (hd 0 (status_reg (bus m))) = false ->
  events cfg (int_flags (bus m)) = (Z.to_nat (len + 6) + 1)%nat ->
  let queued := snd (rfm12_tx cfg len type data m) in
  let final := run_polls cfg (length (int_flags (bus m))) (rfm12_tick cfg queued) in
  fst (rfm12_tx cfg len type data m) = RFM12_TX_ENQUEUED /\
  exists trailer,
    tx_bytes (written (bus final)) =
    tx_bytes (written (bus m))
    ++ [PREAMBLE cfg; PREAMBLE cfg]
    ++ frame (SYNC_MSB cfg) (SYNC_LSB cfg) len type (take (Z.to_nat len) data) trailer.
Proof.
  intros Hty Hlb Hcap Hfit Hdata Hs0 Hs1 Hst Htx Hcf Hcar Hev queued final.
  destruct (transmit_written cfg m type len data Hty Hlb Hcap Hfit Hdata
                             Hst Htx Hcf Hcar Hev) as (Hret & Hw & _ & _).
  split; [exact Hret|].
  exists (tx_byte_at (len + 5) queued).
  unfold final, queued. rewrite Hw, Hs0, Hs1.
  rewrite !tx_bytes_app, tx_bytes_map. unfold frame. simpl.
  rewrite <- !app_assoc. reflexivity.
Qed.

(** Closing a side condition at a concrete input by evaluation. *)
Ltac by_evaluation :=
  lazymatch goal with
  | |- is_byte _ => unfold is_byte; lia
  | |- Forall _ _ =>
      repeat (apply Forall_cons; split; [unfold is_byte; lia|]); apply Forall_nil; exact I
  | |- rx_buffers_ok _ _ => unfold rx_buffers_ok; vm_compute; repeat split; discriminate
  | |- rx_safe _ _ =>
      unfold rx_safe, rx_buffers_ok; vm_compute; repeat split;
      first [reflexivity | discriminate]
  | |- tx_buffer_ok _ _ => vm_compute; reflexivity
  | |- counters_ok _ _ => unfold counters_ok; vm_compute; repeat split; discriminate
  | |- buffer_index_ok _ => left; reflexivity
  | |- _ \/ _ => left; vm_compute; reflexivity
  | |- (_ <= _)%nat => vm_compute; lia
  | |- (_ < _)%nat => vm_compute; lia
  | |- _ <= _ => vm_compute; discriminate
  | |- _ < _ => vm_compute; reflexivity
  | |- _ <= _ < _ => split; [vm_compute; discriminate | vm_compute; reflexivity]
  | |- _ <> _ => vm_compute; discriminate
  | |- _ = _ => vm_compute; reflexivity
  end.

Lemma tx_wire_format_witness :
  fst (rfm12_tx stock 3 5 [1; 2; 3] tx_ready_machine) = RFM12_TX_ENQUEUED /\
  exists trailer,
    tx_bytes (written (bus (run_polls stock 10
                (rfm12_tick stock (snd (rfm12_tx stock 3 5 [1; 2; 3] tx_ready_machine))))))
    = [170; 170] ++ frame 45 212 3 5 [1; 2; 3] trailer.
Proof.
  apply (tx_wire_format stock tx_ready_machine 5 3 [1; 2; 3]); by_evaluation.
Defined.

(** ** Reception *)

(** Decide the integer tests of the goal by linear arithmetic. *)
Ltac ztests :=
  repeat match goal with
         | |- context [?a <? ?b] =>
             first [ replace (a <? b) with true by (symmetry; apply Z.ltb_lt; lia)
                   | replace (a <? b) with false by (symmetry; apply Z.ltb_ge; lia) ]
         | |- context [?a <=? ?b] =>
             first [ replace (a <=? b) with true by (symmetry; apply Z.leb_le; lia)
                   | replace (a <=? b) with false by (symmetry; apply Z.leb_gt; lia) ]
         | |- context [?a =? ?b] =>
             first [ replace (a =? b) with true by (symmetry; apply Z.eqb_eq; lia)
                   | replace (a =? b) with false by (symmetry; apply Z.eqb_neq; lia) ]
         end.

(** Simplification of the tests on the slot index. *)
Ltac index_simpl :=
  state_unfold;
  try change (0 =? 0) with true;
  repeat match goal with
         | H : (_ =? 0) = false |- _ => rewrite H
         end;
  cbv iota;
  cbn [rx_status rx_len rx_type rx_checksum rx_buffer].

(** The two values of the slot index. *)
Ltac split_index bi :=
  let Hne := fresh "Hne" in
  destruct (Z.eqb_spec bi 0) as [->|Hne];
  [ change (0 =? 0) with true in *
  | apply Z.eqb_neq in Hne; rewrite ?Hne in * ].

(** The length byte opens a reception when the slot to fill is free. *)
Lemma isr_rx_start cfg m len rest :
  rfm12_state (ctrl m) = STATE_RX_IDLE ->
  rx_status (rf_rx_buffers (buffer_in_num (ctrl m)) m) = STATUS_FREE ->
  is_byte len ->
  0 <= len + PACKET_OVERHEAD cfg < 2 ^ counter_bits cfg ->
  fifo (bus m) = len :: rest ->
  isr_fifo_event cfg m = rx_started cfg len rest m.
Proof.
  intros Hst Hfree Hl Hfit Hfifo.
  destruct m as [[st tx nb bc bi bo] t r0 r1 ck0 cf [fl ff sr w ie] p o].
  simpl in Hst, Hfifo, Hfree; subst st ff.
  unfold isr_fifo_event. simpl rfm12_state. cbv iota.
  driver_unfold.
  rewrite u8_small, ctr_small by assumption.
  revert Hfree; unfold rf_rx_buffers; driver_unfold.
  split_index bi; driver_unfold; intros ->; reflexivity.
Qed.

(** A packet byte that is stored and counted. *)
Lemma isr_rx_byte cfg m b rest s' :
  rfm12_state (ctrl m) = STATE_RX_ACTIVE ->
  fifo (bus m) = b :: rest ->
  is_byte b ->
  0 <= bytecount (ctrl m) < num_bytes (ctrl m) ->
  num_bytes (ctrl m) < 2 ^ counter_bits cfg ->
  bytecount (ctrl m) < RFM12_RX_BUFFER_SIZE cfg + 3 ->
  rx_store (bytecount (ctrl m)) b (rf_rx_buffers (buffer_in_num (ctrl m)) m) = Some s' ->
  (bytecount (ctrl m) = 2 -> Z.lxor (checksum m) b = 255) ->
  isr_fifo_event cfg m = rx_stored b s' rest m.
Proof.
  intros Hst Hfifo Hb Hbc Hnb Hin Hstore Hck.
  destruct m as [[st tx nb bc bi bo] t r0 r1 ck0 cf [fl ff sr w ie] p o].
  simpl in Hst, Hfifo, Hbc, Hnb, Hin, Hck; subst st ff.
  unfold isr_fifo_event. simpl rfm12_state. cbv iota.
  revert Hstore. unfold isr_rx_active.
  driver_unfold.
  rewrite u8_small by assumption. intros Hstore.
  ztests. rewrite Hstore.
  assert (Hgo : (bc =? 2) && negb (Z.lxor ck0 b =? 255) = false).
  { destruct (Z.eqb_spec bc 2) as [E|E]; [|reflexivity].
    rewrite (Hck E). reflexivity. }
  split_index bi; driver_unfold; rewrite Hgo, ctr_small by lia; reflexivity.
Qed.

(** The checksum byte of a header that fails the test. *)
Lemma isr_rx_bad_header cfg m b rest s' :
  rfm12_state (ctrl m) = STATE_RX_ACTIVE ->
  fifo (bus m) = b :: rest ->
  is_byte b ->
  bytecount (ctrl m) = 2 ->
  2 < num_bytes (ctrl m) ->
  0 <= RFM12_RX_BUFFER_SIZE cfg ->
  rx_store 2 b (rf_rx_buffers (buffer_in_num (ctrl m)) m) = Some s' ->
  Z.lxor (checksum m) b <> 255 ->
  isr_fifo_event cfg m =
  fifo_reset (set_rf_rx_buffers (buffer_in_num (ctrl m)) s'
                (set_checksum (Z.lxor (checksum m) b) (set_fifo rest m))).
Proof.
  intros Hst Hfifo Hb Hbc Hnb Hrx Hstore Hck.
  destruct m as [[st tx nb bc bi bo] t r0 r1 ck0 cf [fl ff sr w ie] p o].
  simpl in Hst, Hfifo, Hbc, Hnb, Hck; subst st ff bc.
  unfold isr_fifo_event. simpl rfm12_state. cbv iota.
  revert Hstore. unfold isr_rx_active.
  driver_unfold.
  rewrite u8_small by assumption. intros Hstore.
  ztests. rewrite Hstore. simpl andb.
  apply Z.eqb_neq in Hck.
  split_index bi; driver_unfold; rewrite Hck; reflexivity.
Qed.

(** The byte that arrives once all bytes of the packet are counted. *)
Lemma isr_rx_complete cfg m b rest :
  rfm12_state (ctrl m) = STATE_RX_ACTIVE ->
  fifo (bus m) = b :: rest ->
  num_bytes (ctrl m) <= bytecount (ctrl m) ->
  isr_fifo_event cfg m = rx_completed rest m.
Proof.
  intros Hst Hfifo Hbc.
  destruct m as [[st tx nb bc bi bo] t r0 r1 ck0 cf [fl ff sr w ie] p o].
  simpl in Hst, Hfifo, Hbc; subst st ff.
  unfold isr_fifo_event. simpl rfm12_state. cbv iota.
  unfold isr_rx_active. driver_unfold. ztests.
  split_index bi; reflexivity.
Qed.

Lemma rx_store_header off b s :
  0 <= off < 3 ->
  rx_store off b s =
  Some (RxBuffer (rx_status s)
                 (if off =? 0 then b else rx_len s)
                 (if off =? 1 then b else rx_type s)
                 (if off =? 2 then b else rx_checksum s)
                 (rx_buffer s)).
Proof.
  intros Hoff. unfold rx_store.
  destruct (Z.eqb_spec off 0); [subst; reflexivity|].
  destruct (Z.eqb_spec off 1); [subst; reflexivity|].
  destruct (Z.eqb_spec off 2); [subst; reflexivity|lia].
Qed.

Lemma rx_store_payload j b s :
  (j < length (rx_buffer s))%nat ->
  rx_store (3 + Z.of_nat j) b s =
  Some (RxBuffer (rx_status s) (rx_len s) (rx_type s) (rx_checksum s)
                 (<[j := b]> (rx_buffer s))).
Proof.
  intros Hj. unfold rx_store. ztests. simpl andb. cbv iota.
  replace (Z.to_nat (3 + Z.of_nat j - 3)) with j by lia. reflexivity.
Qed.


(** Rewrite the innermost fifo event, the one applied to an explicit state. *)
Ltac innermost_event tac :=
  match goal with
  | |- context [isr_fifo_event ?cfg (Machine ?c ?t ?a ?b ?k ?f ?bs ?p ?o)] =>
      tac (Machine c t a b k f bs p o)
  end.

(** The three header bytes, from [STATE_RX_IDLE] with a free slot. *)
Lemma handle_rx_header cfg m len type ck rest :
  rfm12_state (ctrl m) = STATE_RX_IDLE ->
  rx_status (rf_rx_buffers (buffer_in_num (ctrl m)) m) = STATUS_FREE ->
  is_byte len -> is_byte type -> is_byte ck ->
  3 <= PACKET_OVERHEAD cfg ->
  len + PACKET_OVERHEAD cfg < 2 ^ counter_bits cfg ->
  0 <= RFM12_RX_BUFFER_SIZE cfg ->
  fifo (bus m) = len :: type :: ck :: rest ->
  handle cfg 3 m =
  if Z.lxor (Z.lxor len type) ck =? 255
  then rx_accepted cfg len type ck rest m
  else rx_rejected cfg len type ck rest m.
Proof.
  intros Hst Hfree Hl Ht Hc Hov Hfit Hrx Hfifo.
  assert (Hl' := Hl); unfold is_byte in Hl'.
  simpl handle.
  rewrite (isr_rx_start cfg m len (type :: ck :: rest)) by (assumption || lia).
  destruct m as [[st tx nb bc bi bo] t r0 r1 ck0 cf [fl ff sr w ie] p o].
  simpl in Hst, Hfifo; subst st ff. clear Hfree.
  split_index bi; index_simpl.
  all: innermost_event ltac:(fun M =>
         erewrite (isr_rx_byte cfg M type (ck :: rest));
         [ | first [ reflexivity | assumption | simpl; lia | simpl; discriminate ] .. ]).
  all: index_simpl.
  all: destruct (Z.eqb_spec (Z.lxor (Z.lxor len type) ck) 255) as [Hok|Hbad].
  all: try (erewrite (isr_rx_byte cfg _ ck rest);
         [ | first [ reflexivity | assumption | simpl; lia | simpl; intros _; exact Hok ] .. ];
         index_simpl; rewrite ?Hok; reflexivity).
  all: erewrite (isr_rx_bad_header cfg _ ck rest);
         [ | first [ reflexivity | assumption | simpl; lia | exact Hbad ] .. ];
         index_simpl; reflexivity.
Qed.

Lemma insert_fill (bs : list Z) x buf :
  (length bs < length buf)%nat ->
  <[length bs := x]> (bs ++ drop (length bs) buf) =
  (bs ++ [x]) ++ drop (length (bs ++ [x])) buf.
Proof.
  intros Hlen.
  destruct (lookup_lt_is_Some_2 buf (length bs) Hlen) as [y Hy].
  rewrite (drop_S buf y (length bs) Hy).
  rewrite insert_app_r_alt by lia.
  replace (length bs - length bs)%nat with O by lia. simpl.
  rewrite length_app. simpl.
  replace (length bs + 1)%nat with (S (length bs)) by lia.
  rewrite <- app_assoc. reflexivity.
Qed.

(** The payload bytes, one fifo event each, stored behind the header. *)
Lemma handle_rx_payload cfg bs : forall rest m,
  rfm12_state (ctrl m) = STATE_RX_ACTIVE ->
  bytecount (ctrl m) = 3 ->
  3 + Z.of_nat (length bs) <= num_bytes (ctrl m) ->
  num_bytes (ctrl m) < 2 ^ counter_bits cfg ->
  (length bs <= length (rx_buffer (rf_rx_buffers (buffer_in_num (ctrl m)) m)))%nat ->
  Z.of_nat (length (rx_buffer (rf_rx_buffers (buffer_in_num (ctrl m)) m)))
    <= RFM12_RX_BUFFER_SIZE cfg ->
  Forall is_byte bs ->
  fifo (bus m) = bs ++ rest ->
  handle cfg (length bs) m = rx_filled bs rest m.
Proof.
  induction bs as [|x bs IH] using rev_ind; intros rest m Hst Hbc Hnb Hfit Hlen Hcap Hby Hfifo.
  - destruct m as [[st tx nb bc bi bo] t [q0 l0 t0 c0 b0] [q1 l1 t1 c1 b1]
                   ck0 cf [fl ff sr w ie] p o].
    simpl in Hfifo; subst ff. simpl handle.
    split_index bi; index_simpl; simpl; rewrite Z.add_0_r; reflexivity.
  - apply Forall_app in Hby as [Hby Hx].
    assert (Hx' : is_byte x) by (inversion Hx; assumption). clear Hx.
    rewrite length_app in Hnb, Hlen |- *. simpl length in Hnb, Hlen |- *.
    rewrite handle_add, (IH (x :: rest)); try assumption; try lia;
      [|rewrite Hfifo, <- app_assoc; reflexivity].
    clear IH.
    destruct m as [[st tx nb bc bi bo] t [q0 l0 t0 c0 b0] [q1 l1 t1 c1 b1]
                   ck0 cf [fl ff sr w ie] p o].
    simpl in Hst, Hbc, Hnb, Hfit, Hfifo; subst st bc. clear Hfifo.
    simpl handle. unfold rf_rx_buffers in Hlen, Hcap. simpl in Hlen, Hcap.
    split_index bi; index_simpl; simpl in Hlen, Hcap.
    all: innermost_event ltac:(fun M =>
           erewrite (isr_rx_byte cfg M x rest);
           [ | first [ reflexivity | assumption | simpl; lia
                     | index_simpl; apply rx_store_payload; simpl;
                       rewrite length_app, length_drop; lia ] .. ]).

    all: index_simpl; rewrite insert_fill by lia;
         rewrite foldl_app, length_app, Nat2Z.inj_add; simpl;
         rewrite Z.add_assoc; reflexivity.
Qed.

Lemma lxor_checksum a : Z.lxor a (Z.lxor a 255) = 255.
Proof. rewrite <- Z.lxor_assoc, Z.lxor_nilpotent. reflexivity. Qed.

(** A whole frame behind the sync pattern: header, payload and the byte
    that follows the payload. *)
Lemma receive_frame cfg r len type payload trailer rest :
  rfm12_state (ctrl r) = STATE_RX_IDLE ->
  rx_status (rf_rx_buffers (buffer_in_num (ctrl r)) r) = STATUS_FREE ->
  is_byte len -> is_byte type -> Forall is_byte payload ->
  length payload = Z.to_nat len ->
  PACKET_OVERHEAD cfg = 3 ->
  len + 3 < 2 ^ counter_bits cfg ->
  rx_buffers_ok cfg r ->
  len <= RFM12_RX_BUFFER_SIZE cfg ->
  fifo (bus r) = [len; type; Z.lxor (Z.lxor len type) 255] ++ payload ++ trailer :: rest ->
  let r' := handle cfg (3 + (length payload + 1)) r in
  rf_rx_buffers (buffer_in_num (ctrl r)) r' =
    RxBuffer STATUS_COMPLETE len type (Z.lxor (Z.lxor len type) 255)
             (payload ++ drop (length payload)
                              (rx_buffer (rf_rx_buffers (buffer_in_num (ctrl r)) r))) /\
  rfm12_state (ctrl r') = STATE_RX_IDLE /\
  buffer_in_num (ctrl r') = Z.lxor (buffer_in_num (ctrl r)) 1 /\
  fifo (bus r') = rest /\
  rx_overrun r' = rx_overrun r.
Proof.
  intros Hst Hfree Hl Ht Hp Hlen Hov Hfit (Hrx & H0 & H1) Hcap Hfifo r'.
  assert (Hck : is_byte (Z.lxor (Z.lxor len type) 255))
    by (apply lxor_byte; [apply lxor_byte; assumption|unfold is_byte; lia]).
  assert (Hl' := Hl); unfold is_byte in Hl'.
  assert (Hfit' : len + PACKET_OVERHEAD cfg < 2 ^ counter_bits cfg)
    by (rewrite Hov; exact Hfit).
  unfold r'. rewrite !handle_add.
  rewrite (handle_rx_header cfg r len type (Z.lxor (Z.lxor len type) 255)
                            (payload ++ trailer :: rest))
    by (assumption || lia).
  rewrite lxor_checksum. change (255 =? 255) with true. cbv iota.
  destruct r as [[st tx nb bc bi bo] t [q0 l0 t0 c0 b0] [q1 l1 t1 c1 b1]
                 ck0 cf [fl ff sr w ie] p o].
  simpl in Hst, H0, H1; subst st. clear Hfifo.
  unfold rf_rx_buffers in Hfree |- *. simpl in Hfree |- *.
  split_index bi; index_simpl; simpl in Hfree; subst.
  all: rewrite (handle_rx_payload cfg payload (trailer :: rest));
    [ | first [ reflexivity | assumption | simpl; lia
              | unfold rf_rx_buffers; index_simpl; lia ] .. ].
  all: index_simpl.
  all: simpl handle.
  all: innermost_event ltac:(fun M =>
         rewrite (isr_rx_complete cfg M trailer rest)
           by first [ reflexivity | simpl; lia ]).
  all: index_simpl.
  all: try change (Z.lxor 0 1 =? 0) with false; cbv iota.
  all: repeat split; try reflexivity.
Qed.

(** Invocations that together see [S k] fifo events handle [S k] events. *)
Lemma run_polls_events cfg m k :
  events cfg (int_flags (bus m)) = S k ->
  run_polls cfg (length (int_flags (bus m))) m = set_irq [] true (handle cfg (S k) m).
Proof.
  intros Hev.
  destruct (int_flags (bus m)) as [|f fl] eqn:Hfl; [discriminate|].
  cbn [length]. rewrite run_polls_handle by (rewrite Hfl; simpl; lia).
  rewrite Hfl, Hev. reflexivity.
Qed.

(** A fifo event in [STATE_RX_IDLE] leaves the slot that is not the one to
    fill as it is. *)
Lemma isr_rx_idle_other cfg m i :
  rfm12_state (ctrl m) = STATE_RX_IDLE ->
  (i =? 0) = negb (buffer_in_num (ctrl m) =? 0) ->
  rf_rx_buffers i (isr_fifo_event cfg m) = rf_rx_buffers i m.
Proof.
  intros Hst Hi.
  destruct m as [[st tx nb bc bi bo] t r0 r1 ck0 cf [fl ff sr w ie] p o].
  simpl in Hst, Hi; subst st.
  unfold isr_fifo_event, isr_rx_idle. state_unfold.
  destruct ff as [|x ff]; destruct (bi =? 0); simpl in Hi; rewrite Hi;
    cbv iota; destruct (rx_status r0), (rx_status r1); reflexivity.
Qed.

Lemma rf_rx_buffers_irq i l e m :
  rf_rx_buffers i (set_irq l e m) = rf_rx_buffers i m.
Proof. reflexivity. Qed.

Lemma lxor_1_index bi :
  bi = 0 \/ bi = 1 -> (bi =? 0) = negb (Z.lxor bi 1 =? 0).
Proof. intros [->| ->]; reflexivity. Qed.

(** C3. Round trip: a packet accepted by [rfm12_tx], armed by [rfm12_tick]
    and sent by the interrupt handler, when the bytes sent after the preamble
    and the sync pattern are delivered to a receiver in [STATE_RX_IDLE] whose
    slot to fill is free, leaves that slot complete, with the length, the
    type and the payload of the packet.  The flush byte written after the
    transmitter is switched off may reach the receiver or not. *)
Theorem round_trip cfg m r type len data fed :
  is_byte type -> is_byte len -> Forall is_byte data ->
  len <= RFM12_TX_BUFFER_SIZE cfg ->
  RFM12_TX_BUFFER_SIZE cfg + 6 < 2 ^ counter_bits cfg ->
  (Z.to_nat len <= length data)%nat ->
  rfm12_state (ctrl m) = STATE_RX_IDLE ->
  txstate (ctrl m) = STATUS_FREE ->
  channel_free_count m = 0 ->
  carrier cfg (hd 0 (status_reg (bus m))) = false ->
  events cfg (int_flags (bus m)) = (Z.to_nat (len + 6) + 1)%nat ->
  PACKET_OVERHEAD cfg = 3 ->
  rx_buffers_ok cfg r ->
  len <= RFM12_RX_BUFFER_SIZE cfg ->
  buffer_index_ok r ->
  rfm12_state (ctrl r) = STATE_RX_IDLE ->
  rx_status (rf_rx_buffers (buffer_in_num (ctrl r)) r) = STATUS_FREE ->
  let sent :=
    sent_between m (run_polls cfg (length (int_flags (bus m)))
                      (rfm12_tick cfg (snd (rfm12_tx cfg len type data m)))) in
  fed = drop 4 sent \/ fed = take (Z.to_nat len + 4) (drop 4 sent) ->
  fifo (bus r) = fed ->
  events cfg (int_flags (bus r)) = length fed ->
  let slot := rf_rx_buffers (buffer_in_num (ctrl r))
                (run_polls cfg (length (int_flags (bus r))) r) in
  rx_status slot = STATUS_COMPLETE /\
  rx_len slot = len /\
  rx_type slot = type /\
  take (Z.to_nat len) (rx_buffer slot) = take (Z.to_nat len) data.
Proof.
  intros Hty Hlb Hdb Hcap Hfit Hdata Hst Htx Hcf Hcar Hev Hov Hrx Hrcap Hidx Hrst Hfree
         sent Hfed Hfifo Hrev slot.
  destruct (transmit_written cfg m type len data Hty Hlb Hcap Hfit Hdata
                             Hst Htx Hcf Hcar Hev) as (_ & Hw & _ & _).
  assert (Hlb' := Hlb); unfold is_byte in Hlb'.
  set (payload := take (Z.to_nat len) data) in *.
  assert (Hplen : length payload = Z.to_nat len)
    by (unfold payload; rewrite length_take; lia).
  assert (Hpb : Forall is_byte payload) by (apply Forall_take; exact Hdb).
  set (trailer := tx_byte_at (len + 5) (snd (rfm12_tx cfg len type data m))) in *.
  assert (Hsent : drop 4 sent =
            [len; type; Z.lxor (Z.lxor len type) 255] ++ payload ++ [trailer; 170]).
  { unfold sent, sent_between. rewrite Hw.
    rewrite !tx_bytes_app, tx_bytes_map, drop_app_length.
    cbn [tx_bytes app drop]. rewrite <- !app_assoc. reflexivity. }
  assert (Hframe : forall rest,
    fifo (bus r) = [len; type; Z.lxor (Z.lxor len type) 255] ++ payload ++ trailer :: rest ->
    let r' := handle cfg (3 + (length payload + 1)) r in
    rf_rx_buffers (buffer_in_num (ctrl r)) r' =
      RxBuffer STATUS_COMPLETE len type (Z.lxor (Z.lxor len type) 255)
               (payload ++ drop (length payload)
                  (rx_buffer (rf_rx_buffers (buffer_in_num (ctrl r)) r))) /\
    rfm12_state (ctrl r') = STATE_RX_IDLE /\
    buffer_in_num (ctrl r') = Z.lxor (buffer_in_num (ctrl r)) 1).
  { intros rest Hf r'.
    destruct (receive_frame cfg r len type payload trailer rest) as (A & B & C & _);
      try assumption; [lia|]. auto. }
  assert (Hslot : rf_rx_buffers (buffer_in_num (ctrl r))
                    (run_polls cfg (length (int_flags (bus r))) r) =
      RxBuffer STATUS_COMPLETE len type (Z.lxor (Z.lxor len type) 255)
               (payload ++ drop (length payload)
                  (rx_buffer (rf_rx_buffers (buffer_in_num (ctrl r)) r)))).
  { destruct Hfed as [Hfed|Hfed].
    - rewrite Hsent in Hfed.
      assert (Hn : length fed = S (3 + (length payload + 1))).
      { rewrite Hfed, !length_app. simpl. lia. }
      rewrite Hn in Hrev. rewrite (run_polls_events cfg r _ Hrev), rf_rx_buffers_irq.
      replace (S (3 + (length payload + 1))) with (3 + (length payload + 1) + 1)%nat by lia.
      rewrite handle_add.
      destruct (Hframe [170]) as (A & B & C); [rewrite Hfifo, Hfed; reflexivity|].
      change (handle cfg 1 ?x) with (isr_fifo_event cfg x).
      rewrite isr_rx_idle_other; [exact A|exact B|].
      rewrite C. apply lxor_1_index, Hidx.
    - rewrite Hsent in Hfed.
      assert (Hfed' : fed = [len; type; Z.lxor (Z.lxor len type) 255] ++ payload ++ [trailer]).
      { rewrite Hfed. replace (Z.to_nat len + 4)%nat with (3 + (length payload + 1))%nat by lia.
        change ([len; type; Z.lxor (Z.lxor len type) 255] ++ payload ++ [trailer; 170])
          with ([len; type; Z.lxor (Z.lxor len type) 255] ++ payload ++ [trailer] ++ [170]).
        rewrite !app_assoc. apply take_app_length'. rewrite !length_app. simpl. lia. }
      assert (Hn : length fed = S (3 + length payload)).
      { rewrite Hfed', !length_app. simpl. lia. }
      rewrite Hn in Hrev. rewrite (run_polls_events cfg r _ Hrev), rf_rx_buffers_irq.
      replace (S (3 + length payload)) with (3 + (length payload + 1))%nat by lia.
      destruct (Hframe []) as (A & B & C); [rewrite Hfifo, Hfed'; reflexivity|].
      exact A. }
  unfold slot. rewrite Hslot. simpl.
  repeat split.
  rewrite take_app_length' by (symmetry; exact Hplen).
  reflexivity.
Qed.

Lemma round_trip_witness :
  let slot := rf_rx_buffers 0
                (run_polls stock 8 (rx_ready_machine [3; 5; 249; 1; 2; 3; 0; 170])) in
  rx_status slot = STATUS_COMPLETE /\
  rx_len slot = 3 /\
  rx_type slot = 5 /\
  take 3 (rx_buffer slot) = [1; 2; 3].
Proof.
  apply (round_trip stock tx_ready_machine
                    (rx_ready_machine [3; 5; 249; 1; 2; 3; 0; 170])
                    5 3 [1; 2; 3] [3; 5; 249; 1; 2; 3; 0; 170]); by_evaluation.
Defined.

(** ** The transmit enqueue API *)

(** C10. [rfm12_start_tx] validates no length: for every length byte,
    larger than the transmit buffer or not, a call with [txstate] free writes
    the length, the type and the checksum [length xor type xor 0xFF] into the
    header of the transmit buffer, sets [txstate] to occupied and returns
    [RFM12_TX_ENQUEUED]; a length beyond the capacity is refused by the
    wrapper [rfm12_tx] only. *)
Theorem start_tx_no_length_check cfg m type length data :
  is_byte type -> is_byte length ->
  txstate (ctrl m) = STATUS_FREE ->
  let m' := snd (rfm12_start_tx type length m) in
  fst (rfm12_start_tx type length m) = RFM12_TX_ENQUEUED /\
  tx_len (rf_tx_buffer m') = length /\
  tx_type (rf_tx_buffer m') = type /\
  tx_checksum (rf_tx_buffer m') = Z.lxor (Z.lxor length type) 255 /\
  txstate (ctrl m') = STATUS_OCCUPIED /\
  (RFM12_TX_BUFFER_SIZE cfg < length ->
   fst (rfm12_tx cfg length type data m) = RFM12_TX_ERROR).
Proof.
  intros Hty Hlen Hfree m'. unfold m', rfm12_start_tx. rewrite Hfree. simpl.
  repeat split.
  - apply u8_small, lxor_byte; [apply lxor_byte; assumption|unfold is_byte; lia].
  - intros Hbig. unfold rfm12_tx.
    destruct (Z.ltb_spec (RFM12_TX_BUFFER_SIZE cfg) length); [reflexivity|lia].
Qed.

Lemma start_tx_no_length_check_witness :
  let m' := snd (rfm12_start_tx 5 200 idle_machine) in
  fst (rfm12_start_tx 5 200 idle_machine) = RFM12_TX_ENQUEUED /\
  tx_len (rf_tx_buffer m') = 200 /\
  tx_type (rf_tx_buffer m') = 5 /\
  tx_checksum (rf_tx_buffer m') = Z.lxor (Z.lxor 200 5) 255 /\
  txstate (ctrl m') = STATUS_OCCUPIED /\
  (RFM12_TX_BUFFER_SIZE stock < 200 ->
   fst (rfm12_tx stock 200 5 [] idle_machine) = RFM12_TX_ERROR).
Proof.
  apply (start_tx_no_length_check stock idle_machine 5 200 []); by_evaluation.
Defined.

(** C7. A call of [rfm12_tx] with a length greater than the capacity of the
    transmit buffer returns [RFM12_TX_ERROR] and changes nothing: neither the
    transmit buffer nor [txstate] nor any other part of the state. *)
Theorem enqueue_too_large cfg m len type data :
  RFM12_TX_BUFFER_SIZE cfg < len ->
  rfm12_tx cfg len type data m = (RFM12_TX_ERROR, m).
Proof.
  intros Hbig. unfold rfm12_tx.
  destruct (Z.ltb_spec (RFM12_TX_BUFFER_SIZE cfg) len); [reflexivity|lia].
Qed.

Lemma enqueue_too_large_witness :
  rfm12_tx stock 31 5 (replicate 31 0) idle_machine = (RFM12_TX_ERROR, idle_machine).
Proof. apply (enqueue_too_large stock idle_machine 31 5); by_evaluation. Defined.

(** C6, as the code has it. A call made while [txstate] is occupied leaves
    the whole state as it is, the queued packet included, and [txstate] stays
    occupied; [rfm12_start_tx] returns [RFM12_TX_OCCUPIED], and so does
    [rfm12_tx] unless the length exceeds the capacity, which it tests first
    and answers with [RFM12_TX_ERROR]. *)
Theorem enqueue_while_occupied cfg m len type data :
  txstate (ctrl m) = STATUS_OCCUPIED ->
  snd (rfm12_tx cfg len type data m) = m /\
  fst (rfm12_tx cfg len type data m) =
    (if RFM12_TX_BUFFER_SIZE cfg <? len then RFM12_TX_ERROR else RFM12_TX_OCCUPIED) /\
  rfm12_start_tx type len m = (RFM12_TX_OCCUPIED, m).
Proof.
  intros Hocc. unfold rfm12_tx, rfm12_start_tx. rewrite Hocc.
  destruct (RFM12_TX_BUFFER_SIZE cfg <? len); repeat split.
Qed.

Lemma enqueue_while_occupied_witness :
  snd (rfm12_tx stock 2 9 [7; 8] queued_machine) = queued_machine /\
  fst (rfm12_tx stock 2 9 [7; 8] queued_machine) =
    (if RFM12_TX_BUFFER_SIZE stock <? 2 then RFM12_TX_ERROR else RFM12_TX_OCCUPIED) /\
  rfm12_start_tx 9 2 queued_machine = (RFM12_TX_OCCUPIED, queued_machine).
Proof. apply (enqueue_while_occupied stock queued_machine 2 9 [7; 8]); by_evaluation. Defined.

(** C6 as stated fails: with a packet queued, a call of [rfm12_tx] whose
    length exceeds the capacity does not return [RFM12_TX_OCCUPIED]. *)
Lemma enqueue_occupied_oversize :
  txstate (ctrl queued_machine) = STATUS_OCCUPIED /\
  fst (rfm12_tx stock 31 5 (replicate 31 0) queued_machine) <> RFM12_TX_OCCUPIED.
Proof. split; [reflexivity|]. vm_compute. discriminate. Qed.

(** ** What the mainline operations leave alone *)

(** Case analysis on the tests of [rfm12_tick]. *)
Ltac tick_cases :=
  repeat match goal with
         | |- context [if carrier ?c ?s then _ else _] => destruct (carrier c s)
         | |- context [if negb (?a =? 0) then _ else _] => destruct (a =? 0); simpl negb
         | |- context [match ?tx with STATUS_FREE => _ | _ => _ end] =>
             is_var tx; destruct tx
         end.

(** C9, as the code has it. [rfm12_tx], [rfm12_start_tx] and
    [rfm12_rx_clear] never change [rfm12_state], [bytecount], [num_bytes] or
    [buffer_in_num]. [rfm12_tick] never changes [buffer_in_num]; it changes
    the other three only in its arming step, from [STATE_RX_IDLE] with a
    packet queued, where it sets [rfm12_state] to [STATE_TX], [bytecount] to
    0 and [num_bytes] to the frame size. No mainline operation releases a
    pending transmit request. *)
Theorem mainline_mutations cfg m len type data :
  (same_protocol_fields m (snd (rfm12_tx cfg len type data m)) /\
   same_protocol_fields m (snd (rfm12_start_tx type len m)) /\
   same_protocol_fields m (rfm12_rx_clear m)) /\
  (buffer_in_num (ctrl (rfm12_tick cfg m)) = buffer_in_num (ctrl m) /\
   (same_protocol_fields m (rfm12_tick cfg m) \/
    rfm12_state (ctrl m) = STATE_RX_IDLE /\
    txstate (ctrl m) = STATUS_OCCUPIED /\
    rfm12_state (ctrl (rfm12_tick cfg m)) = STATE_TX /\
    bytecount (ctrl (rfm12_tick cfg m)) = 0 /\
    num_bytes (ctrl (rfm12_tick cfg m)) = ctr cfg (tx_len (rf_tx_buffer m) + 6))) /\
  (no_release m (snd (rfm12_tx cfg len type data m)) /\
   no_release m (snd (rfm12_start_tx type len m)) /\
   no_release m (rfm12_rx_clear m) /\
   txstate (ctrl (rfm12_tick cfg m)) = txstate (ctrl m)).
Proof.
  destruct m as [[st tx nb bc bi bo] t r0 r1 ck0 cf [fl ff sr w ie] p o].
  unfold same_protocol_fields, no_release.
  split; [|split].
  - unfold rfm12_tx, rfm12_start_tx, rfm12_rx_clear. state_unfold.
    destruct (RFM12_TX_BUFFER_SIZE cfg <? len), tx, (bo =? 0); simpl; auto 10.
  - unfold rfm12_tick, tick_start_tx. state_unfold.
    destruct st; simpl; auto 10.
    destruct sr as [|s sr]; tick_cases; simpl; auto 10.
  - unfold rfm12_tx, rfm12_start_tx, rfm12_rx_clear, rfm12_tick, tick_start_tx. state_unfold.
    repeat split.
    + destruct (RFM12_TX_BUFFER_SIZE cfg <? len), tx; simpl; congruence.
    + destruct tx; simpl; congruence.
    + destruct (bo =? 0); reflexivity.
    + destruct st; simpl; auto.
      destruct sr as [|s sr]; tick_cases; reflexivity.
Qed.

(** C9 as stated fails: on a clear channel with a packet queued,
    [rfm12_tick] changes [rfm12_state]. *)
Lemma tick_changes_protocol_state :
  rfm12_state (ctrl (rfm12_tick stock queued_machine)) <>
  rfm12_state (ctrl queued_machine).
Proof. vm_compute. discriminate. Qed.

(** ** The collision scheduler *)

Lemma carrier_hd_clear cfg l :
  Forall (fun s => carrier cfg s = false) l -> carrier cfg (hd 0 l) = false.
Proof. intros H; destruct H; [apply carrier_0|assumption]. Qed.

Lemma tail_clear cfg l :
  Forall (fun s => carrier cfg s = false) l ->
  Forall (fun s => carrier cfg s = false) (tail l).
Proof. intros H; destruct H; simpl; [constructor|assumption]. Qed.

(** A tick in [STATE_RX_IDLE] reads the status word once. *)
Lemma tick_idle cfg m :
  rfm12_state (ctrl m) = STATE_RX_IDLE ->
  let s := hd 0 (status_reg (bus m)) in
  let m1 := RFM12_INT_ON (snd (rfm12_read_status (RFM12_INT_OFF m))) in
  status_reg (bus m1) = tail (status_reg (bus m)) /\
  rfm12_tick cfg m =
    if carrier cfg s then set_channel_free_count (u8 (CHANNEL_FREE_TIME cfg)) m1
    else if negb (channel_free_count m =? 0)
         then set_channel_free_count (u8 (channel_free_count m - 1)) m1
         else match txstate (ctrl m) with
              | STATUS_OCCUPIED => tick_start_tx cfg m1
              | _ => m1
              end.
Proof.
  intros Hst.
  destruct m as [[st tx nb bc bi bo] t r0 r1 ck0 cf [fl ff sr w ie] p o].
  simpl in Hst; subst st. unfold rfm12_tick. state_unfold.
  destruct sr as [|s sr]; simpl; split; reflexivity.
Qed.

(** Ticks that all see a carrier leave the protocol state as it is. *)
Lemma ticks_with_carrier cfg n : forall m,
  Forall (fun s => carrier cfg s = true) (status_reg (bus m)) ->
  (n <= length (status_reg (bus m)))%nat ->
  rfm12_state (ctrl (run_ticks cfg n m)) = rfm12_state (ctrl m).
Proof.
  induction n as [|n IH]; intros m Hall Hlen; [reflexivity|].
  simpl run_ticks.
  destruct (rfm12_state (ctrl m)) eqn:Hst.
  - destruct m as [[st tx nb bc bi bo] t r0 r1 ck0 cf [fl ff sr w ie] p o].
    simpl in Hst, Hall, Hlen; subst st.
    destruct sr as [|s sr]; [simpl in Hlen; lia|].
    inversion Hall as [|? ? Hs Hrest]; subst.
    match goal with |- context [rfm12_tick cfg ?M] =>
      assert (Ht : rfm12_tick cfg M =
                   Machine (Control STATE_RX_IDLE tx nb bc bi bo) t r0 r1 ck0
                           (u8 (CHANNEL_FREE_TIME cfg)) (Chip fl ff sr w true) p o)
        by (unfold rfm12_tick; state_unfold; rewrite Hs; reflexivity)
    end.
    rewrite Ht, IH; [reflexivity|exact Hrest|simpl in Hlen |- *; lia].
  - assert (Ht : rfm12_tick cfg m = m) by (unfold rfm12_tick; rewrite Hst; reflexivity).
    rewrite Ht, IH by (assumption || lia). exact Hst.
  - assert (Ht : rfm12_tick cfg m = m) by (unfold rfm12_tick; rewrite Hst; reflexivity).
    rewrite Ht, IH by (assumption || lia). exact Hst.
Qed.

(** On a clear channel the countdown goes down by one per tick and nothing
    is sent while it lasts. *)
Lemma ticks_countdown cfg k : forall m,
  rfm12_state (ctrl m) = STATE_RX_IDLE ->
  Forall (fun s => carrier cfg s = false) (status_reg (bus m)) ->
  Z.of_nat k <= channel_free_count m < 256 ->
  let m' := run_ticks cfg k m in
  rfm12_state (ctrl m') = STATE_RX_IDLE /\
  txstate (ctrl m') = txstate (ctrl m) /\
  Forall (fun s => carrier cfg s = false) (status_reg (bus m')) /\
  channel_free_count m' = channel_free_count m - Z.of_nat k.
Proof.
  induction k as [|k IH]; intros m Hst Hclear Hcount.
  - simpl. repeat split; try assumption. lia.
  - simpl run_ticks.
    destruct (tick_idle cfg m Hst) as [Hsr Htick].
    rewrite (carrier_hd_clear cfg _ Hclear) in Htick.
    destruct (Z.eqb_spec (channel_free_count m) 0) as [E|E]; [lia|].
    simpl negb in Htick. cbv iota in Htick.
    assert (Hu : u8 (channel_free_count m - 1) = channel_free_count m - 1)
      by (apply u8_small; unfold is_byte; lia).
    rewrite Hu in Htick.
    destruct (IH (rfm12_tick cfg m)) as (A & B & C & D).
    + rewrite Htick.
      destruct m as [[st tx nb bc bi bo] t r0 r1 ck0 cf [fl ff sr' w ie] p o].
      simpl in Hst |- *. destruct sr'; exact Hst.
    + rewrite Htick.
      replace (status_reg (bus (set_channel_free_count _ _)))
        with (tail (status_reg (bus m))) by (rewrite <- Hsr; reflexivity).
      apply tail_clear, Hclear.
    + rewrite Htick. simpl. lia.
    + cbv zeta. rewrite A, B, D. repeat split; try assumption.
      * rewrite Htick.
        destruct m as [[st tx nb bc bi bo] t r0 r1 ck0 cf [fl ff sr' w ie] p o].
        simpl. destruct sr'; reflexivity.
      * rewrite Htick. simpl. lia.
Qed.

(** With the countdown at zero, a clear channel and a packet queued, the
    tick arms the transmission. *)
Lemma tick_fires cfg m :
  rfm12_state (ctrl m) = STATE_RX_IDLE ->
  txstate (ctrl m) = STATUS_OCCUPIED ->
  Forall (fun s => carrier cfg s = false) (status_reg (bus m)) ->
  channel_free_count m = 0 ->
  rfm12_state (ctrl (rfm12_tick cfg m)) = STATE_TX.
Proof.
  intros Hst Htx Hclear Hc.
  destruct (tick_idle cfg m Hst) as [_ Htick].
  rewrite (carrier_hd_clear cfg _ Hclear), Hc, Htx in Htick.
  rewrite Htick. reflexivity.
Qed.

Lemma run_ticks_add cfg a b m :
  run_ticks cfg (a + b) m = run_ticks cfg b (run_ticks cfg a m).
Proof. revert m; induction a as [|a IH]; intros m; simpl; [reflexivity|apply IH]. Qed.

(** C5. While every tick reads the carrier bit set, no number of ticks
    changes [rfm12_state], so none starts a transmission.  Once a tick has
    seen the carrier and all later ticks read the bit clear, with a packet
    queued in [STATE_RX_IDLE], the scheduler waits exactly
    [CHANNEL_FREE_TIME] clear ticks: after each of the first
    [CHANNEL_FREE_TIME] clear ticks the state is still [STATE_RX_IDLE], and
    the next tick sets it to [STATE_TX]. *)
Theorem collision_scheduler cfg m :
  0 <= CHANNEL_FREE_TIME cfg < 256 ->
  (forall n,
     Forall (fun s => carrier cfg s = true) (status_reg (bus m)) ->
     (n <= length (status_reg (bus m)))%nat ->
     rfm12_state (ctrl (run_ticks cfg n m)) = rfm12_state (ctrl m)) /\
  (forall s rest,
     rfm12_state (ctrl m) = STATE_RX_IDLE ->
     txstate (ctrl m) = STATUS_OCCUPIED ->
     status_reg (bus m) = s :: rest ->
     carrier cfg s = true ->
     Forall (fun s => carrier cfg s = false) rest ->
     (forall k, Z.of_nat k <= CHANNEL_FREE_TIME cfg ->
        rfm12_state (ctrl (run_ticks cfg (1 + k) m)) = STATE_RX_IDLE) /\
     rfm12_state (ctrl (run_ticks cfg (1 + Z.to_nat (CHANNEL_FREE_TIME cfg) + 1) m))
       = STATE_TX).
Proof.
  intros Hcft. split; [intros n; apply ticks_with_carrier|].
  intros s rest Hst Htx Hsr Hs Hclear.
  destruct (tick_idle cfg m Hst) as [Hsr1 Htick].
  rewrite Hsr in Htick, Hsr1. simpl hd in Htick. simpl tail in Hsr1. rewrite Hs in Htick.
  assert (Hu : u8 (CHANNEL_FREE_TIME cfg) = CHANNEL_FREE_TIME cfg)
    by (apply u8_small; exact Hcft).
  rewrite Hu in Htick.
  set (m1 := rfm12_tick cfg m) in *.
  assert (Hst1 : rfm12_state (ctrl m1) = STATE_RX_IDLE).
  { rewrite Htick.
    destruct m as [[st tx nb bc bi bo] t r0 r1 ck0 cf [fl ff sr' w ie] p o].
    simpl in Hst, Hsr |- *. subst. reflexivity. }
  assert (Htx1 : txstate (ctrl m1) = STATUS_OCCUPIED).
  { rewrite Htick.
    destruct m as [[st tx nb bc bi bo] t r0 r1 ck0 cf [fl ff sr' w ie] p o].
    simpl in Htx, Hsr |- *. subst. reflexivity. }
  assert (Hcl1 : Forall (fun s => carrier cfg s = false) (status_reg (bus m1))).
  { rewrite Htick.
    replace (status_reg (bus (set_channel_free_count _ _))) with rest
      by (rewrite <- Hsr1; reflexivity).
    exact Hclear. }
  assert (Hc1 : channel_free_count m1 = CHANNEL_FREE_TIME cfg)
    by (rewrite Htick; reflexivity).
  split.
  - intros k Hk. change (run_ticks cfg (1 + k) m) with (run_ticks cfg k m1).
    assert (Hb : Z.of_nat k <= channel_free_count m1 < 256) by lia.
    destruct (ticks_countdown cfg k m1 Hst1 Hcl1 Hb) as (A & _). exact A.
  - rewrite <- Nat.add_assoc.
    change (run_ticks cfg (1 + ?x) m) with (run_ticks cfg x m1).
    rewrite run_ticks_add.
    assert (Hb : Z.of_nat (Z.to_nat (CHANNEL_FREE_TIME cfg))
                 <= channel_free_count m1 < 256) by lia.
    destruct (ticks_countdown cfg (Z.to_nat (CHANNEL_FREE_TIME cfg)) m1 Hst1 Hcl1 Hb)
      as (A & B & C & D).
    change (run_ticks cfg 1 ?x) with (rfm12_tick cfg x).
    apply tick_fires; try assumption; [congruence|lia].
Qed.

Lemma collision_scheduler_witness :
  rfm12_state (ctrl (run_ticks stock 201 carrier_machine)) = STATE_RX_IDLE /\
  rfm12_state (ctrl (run_ticks stock 202 carrier_machine)) = STATE_TX.
Proof.
  destruct (collision_scheduler stock carrier_machine) as [_ HB]; [by_evaluation|].
  destruct (HB 256 []) as [H1 H2]; try by_evaluation.
  split; [apply (H1 200%nat); by_evaluation|exact H2].
Defined.

(** ** The double buffer *)

(** A length byte that finds the slot to fill not free is dropped. *)
Lemma isr_rx_idle_full cfg m :
  rfm12_state (ctrl m) = STATE_RX_IDLE ->
  rx_status (rf_rx_buffers (buffer_in_num (ctrl m)) m) <> STATUS_FREE ->
  let m' := isr_fifo_event cfg m in
  rx_buffer0 m' = rx_buffer0 m /\
  rx_buffer1 m' = rx_buffer1 m /\
  rfm12_state (ctrl m') = STATE_RX_IDLE /\
  buffer_in_num (ctrl m') = buffer_in_num (ctrl m) /\
  written (bus m') = written (bus m) ++ [CMD_FIFORESET_CLEAR; CMD_FIFORESET_ACCEPT].
Proof.
  intros Hst Hfull.
  destruct m as [[st tx nb bc bi bo] t r0 r1 ck0 cf [fl ff sr w ie] p o].
  simpl in Hst, Hfull; subst st. revert Hfull.
  unfold isr_fifo_event, isr_rx_idle, rf_rx_buffers. state_unfold.
  destruct ff as [|x ff]; destruct (bi =? 0); cbv iota;
    destruct (rx_status r0), (rx_status r1);
    intros Hfull; try congruence; cbn; rewrite <- app_assoc; auto.
Qed.

Lemma handle_rx_full cfg k : forall m,
  rfm12_state (ctrl m) = STATE_RX_IDLE ->
  rx_status (rf_rx_buffers (buffer_in_num (ctrl m)) m) <> STATUS_FREE ->
  let m' := handle cfg k m in
  rx_buffer0 m' = rx_buffer0 m /\
  rx_buffer1 m' = rx_buffer1 m /\
  rfm12_state (ctrl m') = STATE_RX_IDLE.
Proof.
  induction k as [|k IH]; intros m Hst Hfull; [simpl; auto|].
  destruct (isr_rx_idle_full cfg m Hst Hfull) as (A & B & C & D & _).
  simpl handle. destruct (IH (isr_fifo_event cfg m)) as (A' & B' & C').
  - exact C.
  - unfold rf_rx_buffers in Hfull |- *. rewrite D, A, B. exact Hfull.
  - cbv zeta. rewrite A', B', C', A, B. auto.
Qed.

(** C4. When a length byte arrives in [STATE_RX_IDLE] and the slot
    designated by [buffer_in_num] is not free, the handler writes nothing
    into either receive slot, resets the fifo and leaves [rfm12_state] at
    [STATE_RX_IDLE]; and so for every further byte, over any number of
    invocations of the handler, as long as mainline code does not free the
    slot. *)
Theorem full_slot_drops_packet cfg m :
  rfm12_state (ctrl m) = STATE_RX_IDLE ->
  rx_status (rf_rx_buffers (buffer_in_num (ctrl m)) m) <> STATUS_FREE ->
  (let m' := isr_fifo_event cfg m in
   rx_buffer0 m' = rx_buffer0 m /\ rx_buffer1 m' = rx_buffer1 m /\
   rfm12_state (ctrl m') = STATE_RX_IDLE /\
   written (bus m') = written (bus m) ++ [CMD_FIFORESET_CLEAR; CMD_FIFORESET_ACCEPT]) /\
  (forall n,
   let m' := run_polls cfg n m in
   rx_buffer0 m' = rx_buffer0 m /\ rx_buffer1 m' = rx_buffer1 m /\
   rfm12_state (ctrl m') = STATE_RX_IDLE).
Proof.
  intros Hst Hfull. split.
  - destruct (isr_rx_idle_full cfg m Hst Hfull) as (A & B & C & _ & E). auto.
  - intros n. destruct (run_polls_some_handle cfg n m) as (k & l & e & Hk).
    cbv zeta. rewrite Hk.
    destruct (handle_rx_full cfg k m Hst Hfull) as (A & B & C).
    change (rx_buffer0 (set_irq l e ?x)) with (rx_buffer0 x).
    change (rx_buffer1 (set_irq l e ?x)) with (rx_buffer1 x).
    change (ctrl (set_irq l e ?x)) with (ctrl x). auto.
Qed.

(** ** Bounds of the receive slots *)

Lemma ctr_nonneg cfg x : 0 <= counter_bits cfg -> 0 <= ctr cfg x.
Proof.
  intros Hb. unfold ctr.
  apply Z.mod_pos_bound, Z.pow_pos_nonneg; lia.
Qed.

(** A store below the bound of the handler lands inside the slot. *)
Lemma rx_store_in_bounds cfg off b s :
  0 <= off < RFM12_RX_BUFFER_SIZE cfg + 3 ->
  length (rx_buffer s) = Z.to_nat (RFM12_RX_BUFFER_SIZE cfg) ->
  exists s', rx_store off b s = Some s' /\
             length (rx_buffer s') = length (rx_buffer s) /\
             rx_status s' = rx_status s.
Proof.
  intros Hoff Hlen. unfold rx_store.
  destruct (Z.eqb_spec off 0); [eexists; split; [reflexivity|auto]|].
  destruct (Z.eqb_spec off 1); [eexists; split; [reflexivity|auto]|].
  destruct (Z.eqb_spec off 2); [eexists; split; [reflexivity|auto]|].
  ztests. simpl andb. cbv iota.
  eexists; split; [reflexivity|]. simpl. rewrite length_insert. auto.
Qed.

Lemma isr_fifo_event_safe cfg m :
  0 <= counter_bits cfg ->
  rx_safe cfg m -> rx_safe cfg (isr_fifo_event cfg m).
Proof.
  intros Hbits (Hok & Hov & Hbc).
  destruct Hok as (Hrx & H0 & H1).
  destruct m as [[st tx nb bc bi bo] t r0 r1 ck0 cf [fl ff sr w ie] p o].
  simpl in H0, H1, Hov, Hbc. subst o.
  pose proof (ctr_nonneg cfg (bc + 1) Hbits) as Hc1.
  assert (Hfin : forall m', rx_buffers_ok cfg m' -> rx_overrun m' = false ->
                            0 <= bytecount (ctrl m') -> rx_safe cfg m')
    by (intros; unfold rx_safe; auto).
  destruct st; unfold isr_fifo_event.
  - unfold isr_rx_idle, rfm12_read_fifo, fifo_reset, rf_rx_buffers, set_rf_rx_buffers.
    destruct ff as [|x ff]; simpl; destruct (bi =? 0); simpl;
      destruct (rx_status r0), (rx_status r1); simpl;
      apply Hfin; unfold rx_buffers_ok; simpl; auto; lia.
  - unfold isr_rx_active, rfm12_read_fifo.
    destruct ff as [|x ff]; simpl.
    all: destruct (bc <? nb);
      [ destruct (Z.ltb_spec bc (RFM12_RX_BUFFER_SIZE cfg + 3)) as [Hin|Hout];
        [ unfold rx_store_in, rf_rx_buffers, set_rf_rx_buffers; simpl;
          destruct (bi =? 0);
          [ destruct (rx_store_in_bounds cfg bc (u8 0) r0 (conj Hbc Hin) H0)
              as (s0 & E0 & Hl0 & _);
            destruct (rx_store_in_bounds cfg bc (u8 x) r0 (conj Hbc Hin) H0)
              as (sx & Ex & Hlx & _) || idtac
          | destruct (rx_store_in_bounds cfg bc (u8 0) r1 (conj Hbc Hin) H1)
              as (s0 & E0 & Hl0 & _);
            destruct (rx_store_in_bounds cfg bc (u8 x) r1 (conj Hbc Hin) H1)
              as (sx & Ex & Hlx & _) || idtac ];
          rewrite ?E0, ?Ex; simpl
        | simpl ]
      | unfold fifo_reset, rf_rx_buffers, set_rf_rx_buffers; simpl;
        destruct (bi =? 0); simpl ].
    all: try match goal with
             | |- context [if ?c && ?d then _ else _] => destruct (c && d)
             end.
    all: unfold fifo_reset; simpl; apply Hfin; unfold rx_buffers_ok; simpl;
      auto; repeat split; auto; congruence.
  - unfold isr_tx, fifo_reset.
    destruct (bytecount _ <? _); simpl; apply Hfin; unfold rx_buffers_ok; simpl; auto.
Qed.

Lemma handle_safe cfg k : forall m,
  0 <= counter_bits cfg -> rx_safe cfg m -> rx_safe cfg (handle cfg k m).
Proof.
  induction k as [|k IH]; intros m Hbits Hsafe; [exact Hsafe|].
  simpl. apply IH; [exact Hbits|]. apply isr_fifo_event_safe; assumption.
Qed.

(** C8. In [STATE_RX_ACTIVE] a byte of the packet (one that arrives with
    [bytecount < num_bytes]) is stored at offset [bytecount] of the slot
    exactly when [bytecount < RFM12_RX_BUFFER_SIZE + 3], and that store lies
    inside the slot; a byte at or beyond the bound is not stored, yet counted:
    [bytecount] advances by one and the byte is folded into the checksum.
    No run of the handler ever writes outside a slot, whatever length the
    header advertises. *)
Theorem rx_store_bounded cfg m :
  0 <= counter_bits cfg ->
  rx_safe cfg m ->
  (forall k, rx_safe cfg (handle cfg k m)) /\
  (forall n, rx_overrun (run_polls cfg n m) = false) /\
  (rfm12_state (ctrl m) = STATE_RX_ACTIVE ->
   bytecount (ctrl m) < num_bytes (ctrl m) ->
   num_bytes (ctrl m) < 2 ^ counter_bits cfg ->
   let data := u8 (hd 0 (fifo (bus m))) in
   let m' := isr_fifo_event cfg m in
   (bytecount (ctrl m) < RFM12_RX_BUFFER_SIZE cfg + 3 ->
    exists s',
      rx_store (bytecount (ctrl m)) data (rf_rx_buffers (buffer_in_num (ctrl m)) m)
        = Some s' /\
      rf_rx_buffers (buffer_in_num (ctrl m)) m' = s') /\
   (RFM12_RX_BUFFER_SIZE cfg + 3 <= bytecount (ctrl m) ->
    rx_buffer0 m' = rx_buffer0 m /\
    rx_buffer1 m' = rx_buffer1 m /\
    bytecount (ctrl m') = bytecount (ctrl m) + 1 /\
    checksum m' = Z.lxor (checksum m) data /\
    rfm12_state (ctrl m') = STATE_RX_ACTIVE)).
Proof.
  intros Hbits Hsafe. split; [|split].
  - intros k. apply handle_safe; assumption.
  - intros n. destruct (run_polls_some_handle cfg n m) as (k & l & e & Hk).
    rewrite Hk. change (rx_overrun (set_irq l e ?x)) with (rx_overrun x).
    apply (handle_safe cfg k m Hbits Hsafe).
  - destruct Hsafe as ((Hrx & H0 & H1) & Hov & Hbc).
    intros Hst Hlt Hnb data m'. unfold data, m'. clear data m'.
    destruct m as [[st tx nb bc bi bo] t r0 r1 ck0 cf [fl ff sr w ie] p o].
    simpl in H0, H1, Hov, Hbc, Hst, Hlt, Hnb. subst o st.
    unfold isr_fifo_event, isr_rx_active, rfm12_read_fifo.
    assert (Hfifo : (match ff with [] => 0 | x :: _ => x end) = hd 0 ff)
      by (destruct ff; reflexivity).
    split.
    + intros Hin. simpl in Hin.
      destruct ff as [|x ff]; simpl.
      all: destruct (Z.ltb_spec bc nb); [|lia].
      all: destruct (Z.ltb_spec bc (RFM12_RX_BUFFER_SIZE cfg + 3)); [|lia].
      all: unfold rx_store_in, rf_rx_buffers, set_rf_rx_buffers; simpl.
      all: destruct (bi =? 0).
      all: match goal with
           | |- context [rx_store ?b ?d ?r] =>
               destruct (rx_store_in_bounds cfg b d r (conj Hbc Hin)
                           ltac:(first [exact H0|exact H1])) as (s' & E & _);
               rewrite E; exists s'; split; [reflexivity|]; simpl;
               destruct ((b =? 2) && negb (Z.lxor ck0 d =? 255)); reflexivity
           end.
    + intros Hout. simpl in Hout.
      destruct ff as [|x ff]; simpl.
      all: destruct (Z.ltb_spec bc nb); [|lia].
      all: destruct (Z.ltb_spec bc (RFM12_RX_BUFFER_SIZE cfg + 3)); [lia|].
      all: simpl; destruct (Z.eqb_spec bc 2); [lia|].
      all: simpl; rewrite ctr_small by lia; auto.
Qed.

(** ** The header checksum *)

(** For a length byte whose sum with [PACKET_OVERHEAD] fits the byte counter,
    the header is accepted, and the handler goes on to read the payload, if
    and only if [len xor type xor cks = 0xFF]; otherwise the handler is back
    in [STATE_RX_IDLE] and the payload arrays of both slots are as before. *)
Theorem header_checksum_gate cfg m len type cks rest :
  rfm12_state (ctrl m) = STATE_RX_IDLE ->
  rx_status (rf_rx_buffers (buffer_in_num (ctrl m)) m) = STATUS_FREE ->
  is_byte len -> is_byte type -> is_byte cks ->
  3 <= PACKET_OVERHEAD cfg ->
  len + PACKET_OVERHEAD cfg < 2 ^ counter_bits cfg ->
  0 <= RFM12_RX_BUFFER_SIZE cfg ->
  fifo (bus m) = len :: type :: cks :: rest ->
  events cfg (int_flags (bus m)) = 3%nat ->
  let m' := run_polls cfg (length (int_flags (bus m))) m in
  (rfm12_state (ctrl m') = STATE_RX_ACTIVE <-> Z.lxor (Z.lxor len type) cks = 255) /\
  (Z.lxor (Z.lxor len type) cks = 255 ->
   bytecount (ctrl m') = 3 /\ num_bytes (ctrl m') = len + PACKET_OVERHEAD cfg) /\
  (Z.lxor (Z.lxor len type) cks <> 255 ->
   rfm12_state (ctrl m') = STATE_RX_IDLE /\
   rx_buffer (rx_buffer0 m') = rx_buffer (rx_buffer0 m) /\
   rx_buffer (rx_buffer1 m') = rx_buffer (rx_buffer1 m)).
Proof.
  intros Hst Hfree Hl Ht Hc Hov Hfit Hrx Hfifo Hev m'.
  unfold m'. rewrite (run_polls_events cfg m 2 Hev).
  rewrite (handle_rx_header cfg m len type cks rest) by assumption.
  destruct m as [[st tx nb bc bi bo] t [q0 l0 t0 c0 b0] [q1 l1 t1 c1 b1]
                 ck0 cf [fl ff sr w ie] p o].
  destruct (Z.eqb_spec (Z.lxor (Z.lxor len type) cks) 255) as [E|E].
  - split_index bi; index_simpl; repeat split; auto; intros; congruence.
  - split_index bi; index_simpl; repeat split; auto; intros; congruence.
Qed.

Lemma header_checksum_gate_witness :
  let m' := run_polls stock 3 (rx_ready_machine [3; 5; 249]) in
  (rfm12_state (ctrl m') = STATE_RX_ACTIVE <-> Z.lxor (Z.lxor 3 5) 249 = 255) /\
  (Z.lxor (Z.lxor 3 5) 249 = 255 ->
   bytecount (ctrl m') = 3 /\ num_bytes (ctrl m') = 3 + PACKET_OVERHEAD stock) /\
  (Z.lxor (Z.lxor 3 5) 249 <> 255 ->
   rfm12_state (ctrl m') = STATE_RX_IDLE /\
   rx_buffer (rx_buffer0 m') = rx_buffer (rx_buffer0 (rx_ready_machine [3; 5; 249])) /\
   rx_buffer (rx_buffer1 m') = rx_buffer (rx_buffer1 (rx_ready_machine [3; 5; 249]))).
Proof.
  apply (header_checksum_gate stock (rx_ready_machine [3; 5; 249]) 3 5 249 []);
    by_evaluation.
Defined.

(** C2 at the length bytes that wrap the 8 bit counter of the stock build:
    [num_bytes = (len + 3) mod 256].  With length 255 the third byte ends the
    packet before the checksum test: a header with a matching checksum is not
    followed by the reading of a payload, and a header with a wrong checksum
    is delivered as a complete packet.  With length 253 the second byte ends
    the packet and the third byte opens a new reception, so the handler is
    not back in [STATE_RX_IDLE] although the checksum does not match. *)
Lemma header_length_wraps :
  (Z.lxor (Z.lxor 255 0) 0 = 255 /\
   rfm12_state (ctrl (run_polls stock 3 (rx_ready_machine [255; 0; 0]))) = STATE_RX_IDLE /\
   rx_status (rx_buffer0 (run_polls stock 3 (rx_ready_machine [255; 0; 0])))
     = STATUS_COMPLETE) /\
  (Z.lxor (Z.lxor 255 0) 1 <> 255 /\
   rx_status (rx_buffer0 (run_polls stock 3 (rx_ready_machine [255; 0; 1])))
     = STATUS_COMPLETE) /\
  (Z.lxor (Z.lxor 253 0) 0 <> 255 /\
   rfm12_state (ctrl (run_polls stock 3 (rx_ready_machine [253; 0; 0]))) = STATE_RX_ACTIVE).
Proof. vm_compute. repeat split; discriminate. Qed.

Lemma full_slot_drops_packet_witness :
  rx_buffer0 (run_polls stock 2 full_rx_machine) = rx_buffer0 full_rx_machine /\
  rx_buffer1 (run_polls stock 2 full_rx_machine) = rx_buffer1 full_rx_machine /\
  rfm12_state (ctrl (run_polls stock 2 full_rx_machine)) = STATE_RX_IDLE.
Proof.
  destruct (full_slot_drops_packet stock full_rx_machine) as [_ H];
    [by_evaluation|by_evaluation|exact (H 2%nat)].
Defined.

Lemma rx_store_bounded_witness :
  rx_overrun (run_polls stock 1 long_packet_machine) = false.
Proof.
  destruct (rx_store_bounded stock long_packet_machine) as (_ & H & _);
    [by_evaluation|by_evaluation|exact (H 1%nat)].
Defined.

(** * Further properties *)

(** ** Invariants of the driver under any sequence of calls *)

(** Simplification for a slot index that is 0 or 1. *)
Ltac bit_simpl :=
  state_unfold;
  repeat first
    [ progress change (Z.lxor 0 1) with 1
    | progress change (Z.lxor 1 1) with 0
    | progress change (0 =? 0) with true
    | progress change (1 =? 0) with false ];
  cbv iota;
  cbn [rx_status rx_len rx_type rx_checksum rx_buffer].

Lemma ctrl_irq l e m : ctrl (set_irq l e m) = ctrl m.
Proof. reflexivity. Qed.

Lemma rx_overrun_irq l e m : rx_overrun (set_irq l e m) = rx_overrun m.
Proof. reflexivity. Qed.

Lemma rf_tx_buffer_irq l e m : rf_tx_buffer (set_irq l e m) = rf_tx_buffer m.
Proof. reflexivity. Qed.

Lemma lxor_1_bit i : i = 0 \/ i = 1 -> Z.lxor i 1 = 0 \/ Z.lxor i 1 = 1.
Proof. intros [->| ->]; [right|left]; reflexivity. Qed.

Lemma isr_fifo_event_fields cfg m :
  (buffer_in_num (ctrl (isr_fifo_event cfg m)) = buffer_in_num (ctrl m) \/
   buffer_in_num (ctrl (isr_fifo_event cfg m)) = Z.lxor (buffer_in_num (ctrl m)) 1) /\
  buffer_out_num (ctrl (isr_fifo_event cfg m)) = buffer_out_num (ctrl m) /\
  rf_tx_buffer (isr_fifo_event cfg m) = rf_tx_buffer m /\
  past_tx_buffer (isr_fifo_event cfg m) = past_tx_buffer m.
Proof.
  destruct m as [[st tx nb bc bi bo] t r0 r1 ck0 cf [fl ff sr w ie] p o].
  destruct st; destruct ff as [|x ff]; driver_cases; auto.
Qed.

Lemma handle_fields cfg k : forall m,
  indices_ok m ->
  indices_ok (handle cfg k m) /\
  rf_tx_buffer (handle cfg k m) = rf_tx_buffer m.
Proof.
  induction k as [|k IH]; intros m Hok; [auto|].
  simpl. destruct (isr_fifo_event_fields cfg m) as (Hin & Hout & Htx & _).
  destruct (IH (isr_fifo_event cfg m)) as (A & B).
  - destruct Hok as [Hi Ho]. split; [|rewrite Hout; exact Ho].
    destruct Hin as [-> | ->]; [exact Hi|apply lxor_1_bit, Hi].
  - split; [exact A|]. rewrite B. exact Htx.
Qed.

Lemma exec_fields cfg c m :
  indices_ok m ->
  indices_ok (exec cfg c m) /\
  (txstate (ctrl m) <> STATUS_FREE -> rf_tx_buffer (exec cfg c m) = rf_tx_buffer m) /\
  tx_sync0 (rf_tx_buffer (exec cfg c m)) = tx_sync0 (rf_tx_buffer m) /\
  tx_sync1 (rf_tx_buffer (exec cfg c m)) = tx_sync1 (rf_tx_buffer m).
Proof.
  intros Hok. destruct c as [| |len type data|type len|]; simpl.
  - rewrite rfm12_poll_handle.
    destruct (handle_fields cfg (burst cfg (int_flags (bus m))) m Hok) as (A & B).
    unfold indices_ok in *. rewrite !ctrl_irq.
    rewrite ?rf_tx_buffer_irq.
    rewrite B. auto.
  - destruct m as [[st tx nb bc bi bo] t r0 r1 ck0 cf [fl ff sr w ie] p o].
    unfold indices_ok in *. simpl in Hok.
    unfold rfm12_tick, tick_start_tx. state_unfold.
    destruct st; auto. destruct sr as [|s sr]; tick_cases; auto.
  - destruct m as [[st tx nb bc bi bo] [s0 s1 l0 t0 c0 b0] r0 r1 ck0 cf [fl ff sr w ie] p o].
    unfold indices_ok in *. simpl in Hok.
    unfold rfm12_tx, rfm12_start_tx. state_unfold.
    destruct (RFM12_TX_BUFFER_SIZE cfg <? len), tx; simpl; repeat split;
      try tauto; intros; congruence.
  - destruct m as [[st tx nb bc bi bo] [s0 s1 l0 t0 c0 b0] r0 r1 ck0 cf [fl ff sr w ie] p o].
    unfold indices_ok in *. simpl in Hok.
    unfold rfm12_start_tx. state_unfold.
    destruct tx; simpl; repeat split; try tauto; intros; congruence.
  - destruct m as [[st tx nb bc bi bo] t r0 r1 ck0 cf [fl ff sr w ie] p o].
    unfold indices_ok in *. simpl in Hok. destruct Hok as [Hi Ho].
    unfold rfm12_rx_clear. state_unfold.
    destruct (bo =? 0); repeat split; auto; apply lxor_1_bit; exact Ho.
Qed.

(** After [rfm12_init], whatever sequence of handler invocations, ticks,
    enqueue calls and [rfm12_rx_clear] calls follows, [buffer_in_num] and
    [buffer_out_num] are 0 or 1, so every access to [rf_rx_buffers] stays
    inside the array, and the transmit buffer still starts with the sync
    pattern. *)
Theorem indices_stay_in_range cfg calls m :
  let m' := run_calls cfg calls (rfm12_init cfg m) in
  indices_ok m' /\
  tx_sync0 (rf_tx_buffer m') = SYNC_MSB cfg /\
  tx_sync1 (rf_tx_buffer m') = SYNC_LSB cfg.
Proof.
  assert (H : forall l m0, indices_ok m0 ->
            indices_ok (run_calls cfg l m0) /\
            tx_sync0 (rf_tx_buffer (run_calls cfg l m0)) = tx_sync0 (rf_tx_buffer m0) /\
            tx_sync1 (rf_tx_buffer (run_calls cfg l m0)) = tx_sync1 (rf_tx_buffer m0)).
  { induction l as [|c l IH]; intros m0 Hok; [auto|].
    simpl. destruct (exec_fields cfg c m0 Hok) as (A & _ & B & C).
    destruct (IH _ A) as (A' & B' & C'). rewrite B', C', B, C. auto. }
  destruct (H calls (rfm12_init cfg m)) as (A & B & C).
  - split; left; reflexivity.
  - cbv zeta. rewrite B, C. auto.
Qed.

Lemma handle_tx_buffer cfg k : forall m,
  rf_tx_buffer (handle cfg k m) = rf_tx_buffer m.
Proof.
  induction k as [|k IH]; intros m; [reflexivity|].
  simpl. rewrite IH. apply isr_fifo_event_fields.
Qed.

(** While a transmit request is pending, no entry point changes the transmit
    buffer: not the handler, which sends from it and releases it at the end,
    not the tick, and not a further enqueue call, which is refused. *)
Theorem queued_packet_kept cfg c m :
  txstate (ctrl m) <> STATUS_FREE ->
  rf_tx_buffer (exec cfg c m) = rf_tx_buffer m.
Proof.
  intros Hq. destruct c as [| |len type data|type len|]; simpl.
  - rewrite rfm12_poll_handle, rf_tx_buffer_irq. apply handle_tx_buffer.
  - destruct m as [[st tx nb bc bi bo] t r0 r1 ck0 cf [fl ff sr w ie] p o].
    unfold rfm12_tick, tick_start_tx. state_unfold.
    destruct st; auto. destruct sr as [|s sr]; tick_cases; auto.
  - destruct m as [[st tx nb bc bi bo] t r0 r1 ck0 cf [fl ff sr w ie] p o].
    simpl in Hq. unfold rfm12_tx, rfm12_start_tx. state_unfold.
    destruct (RFM12_TX_BUFFER_SIZE cfg <? len), tx; simpl; congruence.
  - destruct m as [[st tx nb bc bi bo] t r0 r1 ck0 cf [fl ff sr w ie] p o].
    simpl in Hq. unfold rfm12_start_tx. state_unfold.
    destruct tx; simpl; congruence.
  - destruct m as [[st tx nb bc bi bo] t r0 r1 ck0 cf [fl ff sr w ie] p o].
    unfold rfm12_rx_clear. state_unfold. destruct (bo =? 0); reflexivity.
Qed.

Lemma queued_packet_kept_witness :
  rf_tx_buffer (exec stock (CallTx 2 9 [7; 8]) queued_machine) = rf_tx_buffer queued_machine.
Proof. apply (queued_packet_kept stock (CallTx 2 9 [7; 8]) queued_machine); by_evaluation. Defined.

(** ** Double buffering *)

(** The state after a whole frame, in closed form. *)
Lemma receive_frame_eq cfg r len type payload trailer rest :
  buffer_index_ok r ->
  rfm12_state (ctrl r) = STATE_RX_IDLE ->
  rx_status (rf_rx_buffers (buffer_in_num (ctrl r)) r) = STATUS_FREE ->
  is_byte len -> is_byte type -> Forall is_byte payload ->
  length payload = Z.to_nat len ->
  PACKET_OVERHEAD cfg = 3 ->
  len + 3 < 2 ^ counter_bits cfg ->
  rx_buffers_ok cfg r ->
  len <= RFM12_RX_BUFFER_SIZE cfg ->
  fifo (bus r) = rx_frame len type payload trailer ++ rest ->
  handle cfg (length (rx_frame len type payload trailer)) r =
  rx_received cfg len type payload rest r.
Proof.
  intros Hidx Hst Hfree Hl Ht Hp Hlen Hov Hfit (Hrx & H0 & H1) Hcap Hfifo.
  assert (Hck : is_byte (Z.lxor (Z.lxor len type) 255))
    by (apply lxor_byte; [apply lxor_byte; assumption|unfold is_byte; lia]).
  assert (Hl' := Hl); unfold is_byte in Hl'.
  assert (Hfit' : len + PACKET_OVERHEAD cfg < 2 ^ counter_bits cfg)
    by (rewrite Hov; exact Hfit).
  assert (Hfifo' : fifo (bus r) =
            len :: type :: Z.lxor (Z.lxor len type) 255 :: payload ++ trailer :: rest).
  { rewrite Hfifo. unfold rx_frame. simpl. rewrite <- app_assoc. reflexivity. }
  replace (length (rx_frame len type payload trailer))
    with (3 + (length payload + 1))%nat
    by (unfold rx_frame; rewrite !length_app; simpl; lia).
  rewrite !handle_add.
  rewrite (handle_rx_header cfg r len type (Z.lxor (Z.lxor len type) 255)
                            (payload ++ trailer :: rest))
    by (assumption || lia).
  rewrite lxor_checksum. change (255 =? 255) with true. cbv iota.
  destruct r as [[st tx nb bc bi bo] t [q0 l0 t0 c0 b0] [q1 l1 t1 c1 b1]
                 ck0 cf [fl ff sr w ie] p o].
  unfold buffer_index_ok in Hidx.
  simpl in Hst, H0, H1, Hidx; subst st. clear Hfifo Hfifo'.
  unfold rf_rx_buffers in Hfree. simpl in Hfree.
  destruct Hidx as [-> | ->]; simpl in Hfree; subst.
  all: match goal with
       | |- ?lhs = rx_received ?c ?l ?t ?p ?r ?m =>
           set (target := rx_received c l t p r m)
       end.
  all: bit_simpl.
  all: rewrite (handle_rx_payload cfg payload (trailer :: rest));
    [ | first [ reflexivity | assumption | simpl; lia ] .. ].
  all: bit_simpl.
  all: simpl handle.
  all: innermost_event ltac:(fun M =>
         rewrite (isr_rx_complete cfg M trailer rest)
           by first [ reflexivity | simpl; lia ]).
  all: bit_simpl.
  all: subst target; unfold rx_received, rx_accepted; rewrite lxor_checksum; reflexivity.
Qed.

Lemma rx_received_fields cfg len type payload rest r :
  buffer_index_ok r ->
  let i := buffer_in_num (ctrl r) in
  let r' := rx_received cfg len type payload rest r in
  rf_rx_buffers i r' =
    RxBuffer STATUS_COMPLETE len type (Z.lxor (Z.lxor len type) 255)
             (payload ++ drop (length payload) (rx_buffer (rf_rx_buffers i r))) /\
  rf_rx_buffers (Z.lxor i 1) r' = rf_rx_buffers (Z.lxor i 1) r /\
  rfm12_state (ctrl r') = STATE_RX_IDLE /\
  buffer_in_num (ctrl r') = Z.lxor i 1 /\
  buffer_out_num (ctrl r') = buffer_out_num (ctrl r) /\
  fifo (bus r') = rest.
Proof.
  intros Hidx.
  destruct r as [[st tx nb bc bi bo] t [q0 l0 t0 c0 b0] [q1 l1 t1 c1 b1]
                 ck0 cf [fl ff sr w ie] p o].
  unfold buffer_index_ok in Hidx. simpl in Hidx.
  unfold rx_received.
  destruct Hidx as [-> | ->]; repeat split; reflexivity.
Qed.

Lemma fill_length (payload buf : list Z) :
  (length payload <= length buf)%nat ->
  length (payload ++ drop (length payload) buf) = length buf.
Proof. intros H. rewrite length_app, length_drop. lia. Qed.

(** Closing side conditions at a concrete input, packets included. *)
Ltac by_evaluation_ext :=
  lazymatch goal with
  | |- packet_ok _ _ _ _ => unfold packet_ok; repeat split; by_evaluation
  | |- _ => by_evaluation
  end.

(** Double buffering: two packets that arrive back to back, before mainline
    code has read the first, are both received; the first is in the slot
    [buffer_in_num] designated, the second in the other slot, and
    [buffer_in_num] is back at the first slot. *)
Theorem double_buffer_two_frames cfg r len1 type1 p1 t1 len2 type2 p2 t2 :
  rfm12_state (ctrl r) = STATE_RX_IDLE ->
  buffer_index_ok r ->
  rx_buffers_ok cfg r ->
  rx_status (rx_buffer0 r) = STATUS_FREE ->
  rx_status (rx_buffer1 r) = STATUS_FREE ->
  PACKET_OVERHEAD cfg = 3 ->
  RFM12_RX_BUFFER_SIZE cfg + 3 < 2 ^ counter_bits cfg ->
  packet_ok cfg len1 type1 p1 ->
  packet_ok cfg len2 type2 p2 ->
  fifo (bus r) = rx_frame len1 type1 p1 t1 ++ rx_frame len2 type2 p2 t2 ->
  events cfg (int_flags (bus r)) = length (fifo (bus r)) ->
  let r' := run_polls cfg (length (int_flags (bus r))) r in
  let first := rf_rx_buffers (buffer_in_num (ctrl r)) r' in
  let second := rf_rx_buffers (Z.lxor (buffer_in_num (ctrl r)) 1) r' in
  (rx_status first = STATUS_COMPLETE /\ rx_len first = len1 /\ rx_type first = type1 /\
   take (length p1) (rx_buffer first) = p1) /\
  (rx_status second = STATUS_COMPLETE /\ rx_len second = len2 /\ rx_type second = type2 /\
   take (length p2) (rx_buffer second) = p2) /\
  rfm12_state (ctrl r') = STATE_RX_IDLE /\
  buffer_in_num (ctrl r') = buffer_in_num (ctrl r).
Proof.
  intros Hst Hidx Hok Hf0 Hf1 Hov Hfit (Hl1 & Hy1 & Hb1 & Hn1 & Hc1)
         (Hl2 & Hy2 & Hb2 & Hn2 & Hc2) Hfifo Hev r'.
  assert (Hfree : forall i, rx_status (rf_rx_buffers i r) = STATUS_FREE)
    by (intros i; unfold rf_rx_buffers; destruct (i =? 0); assumption).
  assert (Hlenbuf : forall i, length (rx_buffer (rf_rx_buffers i r))
                              = Z.to_nat (RFM12_RX_BUFFER_SIZE cfg)).
  { destruct Hok as (_ & A & B). intros i. unfold rf_rx_buffers.
    destruct (i =? 0); assumption. }
  set (f1 := rx_frame len1 type1 p1 t1) in *.
  set (f2 := rx_frame len2 type2 p2 t2) in *.
  assert (Hn : length (fifo (bus r)) = S (length f1 + length f2 - 1)).
  { rewrite Hfifo, length_app. unfold f1, rx_frame. rewrite !length_app. simpl. lia. }
  rewrite Hn in Hev.
  unfold r'. rewrite (run_polls_events cfg r _ Hev).
  replace (S (length f1 + length f2 - 1)) with (length f1 + length f2)%nat
    by (unfold f1, rx_frame; rewrite !length_app; simpl; lia).
  rewrite handle_add.
  unfold is_byte in Hl1, Hl2.
  subst f1.
  rewrite (receive_frame_eq cfg r len1 type1 p1 t1 f2);
    [ | first [ assumption | apply Hfree | unfold is_byte; lia | lia ] .. ].
  destruct (rx_received_fields cfg len1 type1 p1 f2 r Hidx)
    as (A1 & B1 & C1 & D1 & E1 & F1).
  set (r1 := rx_received cfg len1 type1 p1 f2 r) in *.
  assert (Hidx1 : buffer_index_ok r1).
  { unfold buffer_index_ok. rewrite D1. apply lxor_1_bit, Hidx. }
  assert (Hok1 : rx_buffers_ok cfg r1).
  { destruct Hok as (Hrx & _ & _).
    assert (Hs : forall j, length (rx_buffer (rf_rx_buffers j r1))
                           = Z.to_nat (RFM12_RX_BUFFER_SIZE cfg)).
    { intros j.
      destruct Hidx as [Hi|Hi]; rewrite Hi in A1, B1;
        destruct (Z.eqb_spec j 0) as [->|Hj].
      - rewrite A1. simpl. rewrite fill_length; rewrite (Hlenbuf 0); [reflexivity|lia].
      - change (Z.lxor 0 1) with 1 in B1.
        assert (Hj1 : rf_rx_buffers j r1 = rf_rx_buffers 1 r1)
          by (unfold rf_rx_buffers; apply Z.eqb_neq in Hj; rewrite Hj; reflexivity).
        rewrite Hj1, B1. apply Hlenbuf.
      - change (Z.lxor 1 1) with 0 in B1. rewrite B1. apply Hlenbuf.
      - assert (Hj1 : rf_rx_buffers j r1 = rf_rx_buffers 1 r1)
          by (unfold rf_rx_buffers; apply Z.eqb_neq in Hj; rewrite Hj; reflexivity).
        rewrite Hj1, A1. simpl. rewrite fill_length; rewrite (Hlenbuf 1); [reflexivity|lia]. }
    split; [exact Hrx|]. split; [apply (Hs 0)|apply (Hs 1)]. }
  rewrite <- (app_nil_r f2) in F1. subst f2.
  rewrite (receive_frame_eq cfg r1 len2 type2 p2 t2 []);
    [ | first [ assumption | rewrite D1, B1; apply Hfree | unfold is_byte; lia | lia ] .. ].
  destruct (rx_received_fields cfg len2 type2 p2 [] r1 Hidx1)
    as (A2 & B2 & C2 & D2 & E2 & F2).
  rewrite D1 in A2, B2, D2.
  assert (Hback : Z.lxor (Z.lxor (buffer_in_num (ctrl r)) 1) 1 = buffer_in_num (ctrl r))
    by (destruct Hidx as [-> | ->]; reflexivity).
  rewrite Hback in B2, D2.
  cbv zeta. rewrite !rf_rx_buffers_irq.
  rewrite ?ctrl_irq.
  rewrite B2, A1, A2. simpl.
  repeat split; try assumption.
  - apply take_app_length.
  - apply take_app_length.
Qed.

Lemma rx_clear_fields m :
  buffer_out_num (ctrl m) = 0 \/ buffer_out_num (ctrl m) = 1 ->
  let o := buffer_out_num (ctrl m) in
  let m' := rfm12_rx_clear m in
  rf_rx_buffers o m' = set_rx_status STATUS_FREE (rf_rx_buffers o m) /\
  rf_rx_buffers (Z.lxor o 1) m' = rf_rx_buffers (Z.lxor o 1) m /\
  buffer_out_num (ctrl m') = Z.lxor o 1 /\
  buffer_in_num (ctrl m') = buffer_in_num (ctrl m) /\
  rfm12_state (ctrl m') = rfm12_state (ctrl m) /\
  bus m' = bus m.
Proof.
  intros Ho.
  destruct m as [[st tx nb bc bi bo] t r0 r1 ck0 cf b p o].
  simpl in Ho. unfold rfm12_rx_clear.
  destruct Ho as [-> | ->]; bit_simpl; repeat split; reflexivity.
Qed.

Lemma rx_clear_ok cfg m : rx_buffers_ok cfg m -> rx_buffers_ok cfg (rfm12_rx_clear m).
Proof.
  intros (Hrx & A & B).
  destruct m as [[st tx nb bc bi bo] t r0 r1 ck0 cf b p o].
  unfold rfm12_rx_clear, rx_buffers_ok. state_unfold.
  destruct (bo =? 0); simpl; auto.
Qed.

(** Receive and consume: with [buffer_out_num] equal to [buffer_in_num], a
    received packet is complete in the slot [buffer_out_num] designates;
    [rfm12_rx_clear] then marks that slot free without erasing its length or
    payload, and both indices designate the other slot, so they stay
    together for the next packet. *)
Theorem receive_then_clear cfg r len type payload t :
  rfm12_state (ctrl r) = STATE_RX_IDLE ->
  buffer_index_ok r ->
  buffer_out_num (ctrl r) = buffer_in_num (ctrl r) ->
  rx_buffers_ok cfg r ->
  rx_status (rf_rx_buffers (buffer_in_num (ctrl r)) r) = STATUS_FREE ->
  PACKET_OVERHEAD cfg = 3 ->
  RFM12_RX_BUFFER_SIZE cfg + 3 < 2 ^ counter_bits cfg ->
  packet_ok cfg len type payload ->
  fifo (bus r) = rx_frame len type payload t ->
  events cfg (int_flags (bus r)) = length (fifo (bus r)) ->
  let i := buffer_in_num (ctrl r) in
  let r1 := run_polls cfg (length (int_flags (bus r))) r in
  let r2 := rfm12_rx_clear r1 in
  (buffer_out_num (ctrl r1) = i /\ rx_status (rf_rx_buffers i r1) = STATUS_COMPLETE) /\
  (rx_status (rf_rx_buffers i r2) = STATUS_FREE /\
   rx_len (rf_rx_buffers i r2) = len /\
   take (length payload) (rx_buffer (rf_rx_buffers i r2)) = payload) /\
  buffer_out_num (ctrl r2) = Z.lxor i 1 /\
  buffer_in_num (ctrl r2) = Z.lxor i 1.
Proof.
  intros Hst Hidx Hsync Hok Hfree Hov Hfit (Hl & Hy & Hb & Hn & Hc) Hfifo Hev i r1 r2.
  assert (Hlen : length (fifo (bus r)) = S (length (rx_frame len type payload t) - 1)).
  { rewrite Hfifo. unfold rx_frame. rewrite !length_app. simpl. lia. }
  rewrite Hlen in Hev.
  assert (Hr1 : r1 = set_irq [] true (rx_received cfg len type payload [] r)).
  { unfold r1. rewrite (run_polls_events cfg r _ Hev).
    replace (S (length (rx_frame len type payload t) - 1))
      with (length (rx_frame len type payload t))
      by (unfold rx_frame; rewrite !length_app; simpl; lia).
    unfold is_byte in Hl.
    rewrite (receive_frame_eq cfg r len type payload t []);
      [ reflexivity
      | first [ assumption | unfold is_byte; lia | lia
              | rewrite app_nil_r; assumption ] .. ]. }
  destruct (rx_received_fields cfg len type payload [] r Hidx)
    as (A & B & C & D & E & F).
  fold i in A, B, D.
  assert (A1 : rf_rx_buffers i r1 =
     RxBuffer STATUS_COMPLETE len type (Z.lxor (Z.lxor len type) 255)
       (payload ++ drop (length payload) (rx_buffer (rf_rx_buffers i r))))
    by (rewrite Hr1, rf_rx_buffers_irq; exact A).
  assert (E1 : buffer_out_num (ctrl r1) = i)
    by (rewrite Hr1; rewrite ?ctrl_irq; rewrite E; exact Hsync).
  assert (D1 : buffer_in_num (ctrl r1) = Z.lxor i 1)
    by (rewrite Hr1; rewrite ?ctrl_irq; exact D).
  destruct (rx_clear_fields r1) as (G1 & G2 & G3 & G4 & _).
  { rewrite E1. exact Hidx. }
  rewrite E1 in G1, G2, G3. fold r2 in G1, G2, G3, G4.
  rewrite G1, G3, G4, A1, D1, E1. simpl.
  repeat split; try reflexivity. apply take_app_length.
Qed.

(** [rfm12_rx_clear] tests nothing: called when no packet is complete it
    still advances [buffer_out_num].  The next packet is then received into
    the slot mainline code no longer looks at: it is complete there, while the
    slot [buffer_out_num] designates is free. *)
Theorem stray_rx_clear_hides_packet cfg r len type payload t :
  rfm12_state (ctrl r) = STATE_RX_IDLE ->
  buffer_index_ok r ->
  buffer_out_num (ctrl r) = buffer_in_num (ctrl r) ->
  rx_buffers_ok cfg r ->
  rx_status (rx_buffer0 r) = STATUS_FREE ->
  rx_status (rx_buffer1 r) = STATUS_FREE ->
  PACKET_OVERHEAD cfg = 3 ->
  RFM12_RX_BUFFER_SIZE cfg + 3 < 2 ^ counter_bits cfg ->
  packet_ok cfg len type payload ->
  fifo (bus r) = rx_frame len type payload t ->
  events cfg (int_flags (bus r)) = length (fifo (bus r)) ->
  let i := buffer_in_num (ctrl r) in
  let r1 := rfm12_rx_clear r in
  let r2 := run_polls cfg (length (int_flags (bus r1))) r1 in
  rx_status (rf_rx_buffers i r2) = STATUS_COMPLETE /\
  buffer_out_num (ctrl r2) = Z.lxor i 1 /\
  rx_status (rf_rx_buffers (buffer_out_num (ctrl r2)) r2) = STATUS_FREE.
Proof.
  intros Hst Hidx Hsync Hok Hf0 Hf1 Hov Hfit (Hl & Hy & Hb & Hn & Hc) Hfifo Hev i r1 r2.
  assert (Hfree : forall j, rx_status (rf_rx_buffers j r) = STATUS_FREE)
    by (intros j; unfold rf_rx_buffers; destruct (j =? 0); assumption).
  assert (Ho : buffer_out_num (ctrl r) = 0 \/ buffer_out_num (ctrl r) = 1)
    by (rewrite Hsync; exact Hidx).
  destruct (rx_clear_fields r Ho) as (G1 & G2 & G3 & G4 & G5 & G6).
  rewrite Hsync in G1, G2, G3. fold i in G1, G2, G3, G4. fold r1 in G1, G2, G3, G4, G5, G6.
  assert (Hst1 : rfm12_state (ctrl r1) = STATE_RX_IDLE) by (rewrite G5; exact Hst).
  assert (Hidx1 : buffer_index_ok r1) by (unfold buffer_index_ok; rewrite G4; exact Hidx).
  assert (Hok1 : rx_buffers_ok cfg r1) by (apply rx_clear_ok; exact Hok).
  assert (Hfree1 : rx_status (rf_rx_buffers (buffer_in_num (ctrl r1)) r1) = STATUS_FREE)
    by (rewrite G4; fold i; rewrite G1; reflexivity).
  assert (Hlen : length (fifo (bus r)) = S (length (rx_frame len type payload t) - 1)).
  { rewrite Hfifo. unfold rx_frame. rewrite !length_app. simpl. lia. }
  rewrite Hlen in Hev. rewrite <- G6 in Hev, Hfifo.
  assert (Hr2 : r2 = set_irq [] true (rx_received cfg len type payload [] r1)).
  { unfold r2. rewrite (run_polls_events cfg r1 _ Hev).
    replace (S (length (rx_frame len type payload t) - 1))
      with (length (rx_frame len type payload t))
      by (unfold rx_frame; rewrite !length_app; simpl; lia).
    unfold is_byte in Hl.
    rewrite (receive_frame_eq cfg r1 len type payload t []);
      [ reflexivity
      | first [ assumption | unfold is_byte; lia | lia
              | rewrite app_nil_r; assumption ] .. ]. }
  destruct (rx_received_fields cfg len type payload [] r1 Hidx1)
    as (A & B & C & D & E & F).
  rewrite G4 in A, B. fold i in A, B.
  rewrite Hr2, !rf_rx_buffers_irq.
  rewrite ?ctrl_irq.
  rewrite E, G3, A, B, G2. simpl.
  repeat split. apply Hfree.
Qed.

(** ** Frames longer than a slot *)

Lemma isr_rx_skip cfg m b rest :
  rfm12_state (ctrl m) = STATE_RX_ACTIVE ->
  fifo (bus m) = b :: rest ->
  is_byte b ->
  0 <= RFM12_RX_BUFFER_SIZE cfg ->
  RFM12_RX_BUFFER_SIZE cfg + 3 <= bytecount (ctrl m) ->
  bytecount (ctrl m) < num_bytes (ctrl m) ->
  num_bytes (ctrl m) < 2 ^ counter_bits cfg ->
  isr_fifo_event cfg m = rx_skipped [b] rest m.
Proof.
  intros Hst Hfifo Hb Hrx Hout Hlt Hnb.
  destruct m as [[st tx nb bc bi bo] t r0 r1 ck0 cf [fl ff sr w ie] p o].
  simpl in Hst, Hfifo, Hout, Hlt, Hnb; subst st ff.
  unfold isr_fifo_event. simpl rfm12_state. cbv iota.
  unfold isr_rx_active, rx_skipped. state_unfold.
  rewrite u8_small by assumption. ztests. simpl andb. cbv iota.
  rewrite ctr_small by lia. reflexivity.
Qed.

Lemma handle_rx_skipped cfg bs : forall rest m,
  rfm12_state (ctrl m) = STATE_RX_ACTIVE ->
  fifo (bus m) = bs ++ rest ->
  Forall is_byte bs ->
  0 <= RFM12_RX_BUFFER_SIZE cfg ->
  RFM12_RX_BUFFER_SIZE cfg + 3 <= bytecount (ctrl m) ->
  bytecount (ctrl m) + Z.of_nat (length bs) <= num_bytes (ctrl m) ->
  num_bytes (ctrl m) < 2 ^ counter_bits cfg ->
  handle cfg (length bs) m = rx_skipped bs rest m.
Proof.
  induction bs as [|b bs IH]; intros rest m Hst Hfifo Hby Hrx Hout Hle Hnb.
  - destruct m as [[st tx nb bc bi bo] t r0 r1 ck0 cf [fl ff sr w ie] p o].
    simpl in Hfifo; subst ff. unfold rx_skipped. state_unfold. simpl.
    rewrite Z.add_0_r. reflexivity.
  - inversion Hby as [|? ? Hb Hbs]; subst.
    simpl length in Hle |- *. simpl handle.
    rewrite (isr_rx_skip cfg m b (bs ++ rest)); try assumption; [|lia].
    destruct m as [[st tx nb bc bi bo] t r0 r1 ck0 cf [fl ff sr w ie] p o].
    simpl in Hst, Hout, Hle, Hnb. subst st.
    rewrite (IH rest);
      [ | first [ reflexivity | assumption | simpl; lia ] .. ].
    unfold rx_skipped. state_unfold. cbn [length foldl].
    replace (bc + Z.of_nat 1 + Z.of_nat (length bs)) with (bc + Z.of_nat (S (length bs)))
      by lia.
    reflexivity.
Qed.

(** A packet whose length byte exceeds [RFM12_RX_BUFFER_SIZE] (and does not
    wrap the byte counter) is received all the same: the slot is marked
    complete and reports the advertised length, but holds only the first
    [RFM12_RX_BUFFER_SIZE] payload bytes; the other bytes are dropped and no
    store leaves the slot. *)
Theorem oversize_frame_truncated cfg r len type payload trailer :
  rfm12_state (ctrl r) = STATE_RX_IDLE ->
  rx_status (rf_rx_buffers (buffer_in_num (ctrl r)) r) = STATUS_FREE ->
  is_byte len -> is_byte type -> Forall is_byte payload ->
  length payload = Z.to_nat len ->
  PACKET_OVERHEAD cfg = 3 ->
  len + 3 < 2 ^ counter_bits cfg ->
  rx_buffers_ok cfg r ->
  RFM12_RX_BUFFER_SIZE cfg < len ->
  fifo (bus r) = rx_frame len type payload trailer ->
  events cfg (int_flags (bus r)) = length (fifo (bus r)) ->
  let r' := run_polls cfg (length (int_flags (bus r))) r in
  let slot := rf_rx_buffers (buffer_in_num (ctrl r)) r' in
  rx_status slot = STATUS_COMPLETE /\
  rx_len slot = len /\
  rx_type slot = type /\
  rx_buffer slot = take (Z.to_nat (RFM12_RX_BUFFER_SIZE cfg)) payload /\
  rx_overrun r' = rx_overrun r /\
  rfm12_state (ctrl r') = STATE_RX_IDLE.
Proof.
  intros Hst Hfree Hl Ht Hp Hlen Hov Hfit (Hrx & H0 & H1) Hbig Hfifo Hev r' slot.
  assert (Hck : is_byte (Z.lxor (Z.lxor len type) 255))
    by (apply lxor_byte; [apply lxor_byte; assumption|unfold is_byte; lia]).
  assert (Hl' := Hl); unfold is_byte in Hl'.
  assert (Hfit' : len + PACKET_OVERHEAD cfg < 2 ^ counter_bits cfg)
    by (rewrite Hov; exact Hfit).
  set (n := Z.to_nat (RFM12_RX_BUFFER_SIZE cfg)) in *.
  set (stored := take n payload).
  set (extra := drop n payload).
  assert (Hsl : length stored = n) by (unfold stored; rewrite length_take; lia).
  assert (Hel : length extra = (Z.to_nat len - n)%nat)
    by (unfold extra; rewrite length_drop; lia).
  assert (Hsb : Forall is_byte stored) by (apply Forall_take; exact Hp).
  assert (Heb : Forall is_byte extra) by (apply Forall_drop; exact Hp).
  assert (Hfifo' : fifo (bus r) =
            len :: type :: Z.lxor (Z.lxor len type) 255 :: stored ++ extra ++ [trailer]).
  { rewrite Hfifo. unfold rx_frame, stored, extra. simpl.
    rewrite app_assoc, take_drop. reflexivity. }
  assert (Hcount : length (fifo (bus r)) = S (3 + (n + (length extra + 1)) - 1)).
  { rewrite Hfifo'. simpl. rewrite !length_app. simpl. lia. }
  rewrite Hcount in Hev.
  unfold slot, r'. rewrite (run_polls_events cfg r _ Hev), rf_rx_buffers_irq.
  rewrite ?rx_overrun_irq.
  rewrite ?ctrl_irq.
  replace (S (3 + (n + (length extra + 1)) - 1))
    with (3 + (length stored + (length extra + 1)))%nat by lia.
  rewrite !handle_add.
  rewrite (handle_rx_header cfg r len type (Z.lxor (Z.lxor len type) 255)
                            (stored ++ extra ++ [trailer]))
    by (assumption || lia).
  rewrite lxor_checksum. change (255 =? 255) with true. cbv iota.
  destruct r as [[st tx nb bc bi bo] t [q0 l0 t0 c0 b0] [q1 l1 t1 c1 b1]
                 ck0 cf [fl ff sr w ie] p o].
  simpl in Hst, H0, H1; subst st. clear Hfifo Hfifo' Hcount Hev.
  unfold rf_rx_buffers in Hfree |- *. simpl in Hfree |- *.
  split_index bi; index_simpl; simpl in Hfree; subst.
  all: rewrite (handle_rx_payload cfg stored (extra ++ [trailer]));
    [ | first [ reflexivity | assumption | simpl; lia
              | unfold rf_rx_buffers; index_simpl; lia ] .. ].
  all: index_simpl.
  all: rewrite (handle_rx_skipped cfg extra [trailer]);
    [ | first [ reflexivity | assumption | simpl; lia ] .. ].
  all: unfold rx_skipped; index_simpl.
  all: simpl handle.
  all: innermost_event ltac:(fun M =>
         rewrite (isr_rx_complete cfg M trailer [])
           by first [ reflexivity | simpl; lia ]).
  all: index_simpl.
  all: try change (Z.lxor 0 1 =? 0) with false; cbv iota.
  all: rewrite drop_ge, app_nil_r by lia.
  all: repeat split; reflexivity.
Qed.

(** ** End of a transmission *)

(** When the last byte of a packet has been sent the handler releases the
    transmit buffer, switches the chip back to receive mode, writes the flush
    byte 0xAA and resets the fifo, and is back in [STATE_RX_IDLE]; the next
    call of [rfm12_tx] with a length within the capacity is accepted. *)
Theorem transmit_completes cfg m type len data :
  is_byte type -> is_byte len ->
  len <= RFM12_TX_BUFFER_SIZE cfg ->
  RFM12_TX_BUFFER_SIZE cfg + 6 < 2 ^ counter_bits cfg ->
  (Z.to_nat len <= length data)%nat ->
  rfm12_state (ctrl m) = STATE_RX_IDLE ->
  txstate (ctrl m) = STATUS_FREE ->
  channel_free_count m = 0 ->
  carrier cfg (hd 0 (status_reg (bus m))) = false ->
  events cfg (int_flags (bus m)) = (Z.to_nat (len + 6) + 1)%nat ->
  let final := run_polls cfg (length (int_flags (bus m)))
                 (rfm12_tick cfg (snd (rfm12_tx cfg len type data m))) in
  rfm12_state (ctrl final) = STATE_RX_IDLE /\
  txstate (ctrl final) = STATUS_FREE /\
  (exists sent,
     written (bus final) =
     written (bus m) ++ sent ++
     [CMD_PWRMGT_RECEIVE; CMD_TX 170; CMD_FIFORESET_CLEAR; CMD_FIFORESET_ACCEPT]) /\
  (forall len' type' data',
     len' <= RFM12_TX_BUFFER_SIZE cfg ->
     fst (rfm12_tx cfg len' type' data' final) = RFM12_TX_ENQUEUED).
Proof.
  intros Hty Hlb Hcap Hfit Hdata Hst Htx Hcf Hcar Hev final.
  destruct (transmit_written cfg m type len data Hty Hlb Hcap Hfit Hdata
                             Hst Htx Hcf Hcar Hev) as (_ & Hw & Hs & Hf).
  fold final in Hw, Hs, Hf. clearbody final.
  split; [exact Hs|]. split; [exact Hf|]. split.
  - rewrite Hw.
    rewrite (app_assoc [CMD_TX (PREAMBLE cfg); CMD_TX (PREAMBLE cfg); CMD_PWRMGT_ET]).
    eexists. reflexivity.
  - intros len' type' data' Hle. unfold rfm12_tx.
    destruct (Z.ltb_spec (RFM12_TX_BUFFER_SIZE cfg) len'); [lia|].
    rewrite Hf. unfold rfm12_start_tx. cbn [set_rf_tx_buffer ctrl].
    rewrite Hf. reflexivity.
Qed.

(** The byte sent between the payload and the flush byte is byte [len] of
    the transmit buffer as it was before the call of [rfm12_tx], which copies
    [len] bytes and leaves the rest: what an earlier, longer packet left
    there goes on the air. *)
Theorem trailer_is_stale_buffer_byte cfg m type len data b :
  is_byte type -> is_byte len ->
  len <= RFM12_TX_BUFFER_SIZE cfg ->
  RFM12_TX_BUFFER_SIZE cfg + 6 < 2 ^ counter_bits cfg ->
  (Z.to_nat len <= length data)%nat ->
  rfm12_state (ctrl m) = STATE_RX_IDLE ->
  txstate (ctrl m) = STATUS_FREE ->
  channel_free_count m = 0 ->
  carrier cfg (hd 0 (status_reg (bus m))) = false ->
  events cfg (int_flags (bus m)) = (Z.to_nat (len + 6) + 1)%nat ->
  tx_buffer (rf_tx_buffer m) !! Z.to_nat len = Some b ->
  let final := run_polls cfg (length (int_flags (bus m)))
                 (rfm12_tick cfg (snd (rfm12_tx cfg len type data m))) in
  tx_bytes (written (bus final)) =
  tx_bytes (written (bus m))
  ++ [PREAMBLE cfg; PREAMBLE cfg]
  ++ frame (tx_sync0 (rf_tx_buffer m)) (tx_sync1 (rf_tx_buffer m)) len type
           (take (Z.to_nat len) data) b.
Proof.
  intros Hty Hlb Hcap Hfit Hdata Hst Htx Hcf Hcar Hev Hb final.
  destruct (transmit_written cfg m type len data Hty Hlb Hcap Hfit Hdata
                             Hst Htx Hcf Hcar Hev) as (_ & Hw & _ & _).
  fold final in Hw.
  assert (Htr : tx_byte_at (len + 5) (snd (rfm12_tx cfg len type data m)) = b).
  { unfold is_byte in Hlb.
    destruct m as [[st tx nb bc bi bo] [s0 s1 l0 t0 c0 buf] r0 r1 ck cf ch p o].
    simpl in Htx, Hb. subst tx.
    unfold rfm12_tx, rfm12_start_tx.
    destruct (Z.ltb_spec (RFM12_TX_BUFFER_SIZE cfg) len); [lia|].
    simpl. unfold tx_byte_at. simpl.
    ztests. cbv iota.
    replace (Z.to_nat (len + 5 - 5)) with (Z.to_nat len) by lia.
    unfold memcpy.
    rewrite lookup_app_r by (rewrite length_take; lia).
    rewrite length_take, lookup_drop.
    replace (Z.to_nat len + (Z.to_nat len - Z.to_nat len `min` length data))%nat
      with (Z.to_nat len) by lia.
    rewrite Hb. reflexivity. }
  rewrite Hw, Htr, !tx_bytes_app, tx_bytes_map. unfold frame. simpl.
  rewrite <- !app_assoc. reflexivity.
Qed.

(** ** Countdown from any value *)

(** On a channel that reads clear, with a packet queued, the scheduler
    counts the countdown it holds down to zero, one per tick, without sending,
    and starts the transmission on the tick after; from the initial value 16
    of [channel_free_count] that is the seventeenth tick. *)
Theorem countdown_from_any_value cfg m :
  rfm12_state (ctrl m) = STATE_RX_IDLE ->
  txstate (ctrl m) = STATUS_OCCUPIED ->
  Forall (fun s => carrier cfg s = false) (status_reg (bus m)) ->
  0 <= channel_free_count m < 256 ->
  (forall k, Z.of_nat k <= channel_free_count m ->
     rfm12_state (ctrl (run_ticks cfg k m)) = STATE_RX_IDLE) /\
  rfm12_state (ctrl (run_ticks cfg (Z.to_nat (channel_free_count m) + 1) m)) = STATE_TX.
Proof.
  intros Hst Htx Hclear Hc. split.
  - intros k Hk.
    destruct (ticks_countdown cfg k m Hst Hclear) as (A & _); [lia|exact A].
  - rewrite run_ticks_add.
    destruct (ticks_countdown cfg (Z.to_nat (channel_free_count m)) m Hst Hclear)
      as (A & B & C & D); [lia|].
    change (run_ticks cfg 1 ?x) with (rfm12_tick cfg x).
    apply tick_fires; try assumption; [congruence|lia].
Qed.

(** ** Every entry point keeps the stores inside the slots *)

Lemma exec_safe cfg c m :
  0 <= counter_bits cfg -> rx_safe cfg m -> rx_safe cfg (exec cfg c m).
Proof.
  intros Hbits Hsafe. destruct c as [| |len type data|type len|]; simpl.
  - rewrite rfm12_poll_handle.
    apply (handle_safe cfg (burst cfg (int_flags (bus m))) m Hbits Hsafe).
  - destruct Hsafe as ((Hrx & H0 & H1) & Hov & Hbc).
    destruct m as [[st tx nb bc bi bo] t r0 r1 ck0 cf [fl ff sr w ie] p o].
    simpl in H0, H1, Hov, Hbc.
    unfold rfm12_tick, tick_start_tx, rx_safe, rx_buffers_ok. state_unfold.
    destruct st; [|simpl; auto..].
    destruct sr as [|s sr]; tick_cases; simpl; repeat split; auto; lia.
  - destruct Hsafe as ((Hrx & H0 & H1) & Hov & Hbc).
    destruct m as [[st tx nb bc bi bo] t r0 r1 ck0 cf [fl ff sr w ie] p o].
    simpl in H0, H1, Hov, Hbc.
    unfold rfm12_tx, rfm12_start_tx, rx_safe, rx_buffers_ok. state_unfold.
    destruct (RFM12_TX_BUFFER_SIZE cfg <? len), tx; simpl; auto.
  - destruct Hsafe as ((Hrx & H0 & H1) & Hov & Hbc).
    destruct m as [[st tx nb bc bi bo] t r0 r1 ck0 cf [fl ff sr w ie] p o].
    simpl in H0, H1, Hov, Hbc.
    unfold rfm12_start_tx, rx_safe, rx_buffers_ok. state_unfold.
    destruct tx; simpl; auto.
  - destruct Hsafe as ((Hrx & H0 & H1) & Hov & Hbc).
    destruct m as [[st tx nb bc bi bo] t r0 r1 ck0 cf [fl ff sr w ie] p o].
    simpl in H0, H1, Hov, Hbc.
    unfold rfm12_rx_clear, rx_safe, rx_buffers_ok. state_unfold.
    destruct (bo =? 0); simpl; auto.
Qed.

(** No sequence of handler invocations and mainline calls makes a store
    leave a receive slot, and none changes the sizes of the payload arrays. *)
Theorem no_overrun_under_calls cfg calls m :
  0 <= counter_bits cfg ->
  rx_safe cfg m ->
  rx_safe cfg (run_calls cfg calls m).
Proof.
  intros Hbits. revert m.
  induction calls as [|c calls IH]; intros m Hsafe; [exact Hsafe|].
  simpl. apply IH, exec_safe; assumption.
Qed.

(** ** A reception ends *)

Lemma isr_rx_active_progress cfg m :
  rfm12_state (ctrl m) = STATE_RX_ACTIVE ->
  num_bytes (ctrl m) < 2 ^ counter_bits cfg ->
  0 <= bytecount (ctrl m) ->
  let m' := isr_fifo_event cfg m in
  rfm12_state (ctrl m') = STATE_RX_IDLE \/
  (rfm12_state (ctrl m') = STATE_RX_ACTIVE /\
   bytecount (ctrl m) < num_bytes (ctrl m) /\
   bytecount (ctrl m') = bytecount (ctrl m) + 1 /\
   num_bytes (ctrl m') = num_bytes (ctrl m)).
Proof.
  intros Hst Hnb Hbc.
  destruct m as [[st tx nb bc bi bo] t r0 r1 ck0 cf [fl ff sr w ie] p o].
  simpl in Hst, Hnb, Hbc. subst st.
  cbv zeta. unfold isr_fifo_event. simpl rfm12_state. cbv iota.
  destruct (Z.ltb_spec bc nb) as [Hlt|Hge].
  - assert (Hc : ctr cfg (bc + 1) = bc + 1) by (apply ctr_small; lia).
    destruct ff as [|x ff]; driver_cases; rewrite ?Hc; auto; lia.
  - destruct ff as [|x ff]; driver_cases; auto; lia.
Qed.

(** A reception cannot go on for ever: from [STATE_RX_ACTIVE], at most
    [num_bytes - bytecount + 1] further fifo events bring the handler back to
    [STATE_RX_IDLE], by completion or by a checksum reset. *)
Theorem reception_terminates cfg m :
  rfm12_state (ctrl m) = STATE_RX_ACTIVE ->
  num_bytes (ctrl m) < 2 ^ counter_bits cfg ->
  0 <= bytecount (ctrl m) ->
  exists k,
    (Z.of_nat k <= Z.max 0 (num_bytes (ctrl m) - bytecount (ctrl m)) + 1) /\
    rfm12_state (ctrl (handle cfg k m)) = STATE_RX_IDLE.
Proof.
  remember (Z.to_nat (num_bytes (ctrl m) - bytecount (ctrl m))) as d eqn:Hd.
  revert m Hd. induction d as [|d IH]; intros m Hd Hst Hnb Hbc.
  - exists 1%nat. split; [lia|]. simpl.
    destruct (isr_rx_active_progress cfg m Hst Hnb Hbc) as [A|(A & B & C & D)];
      [exact A|lia].
  - destruct (isr_rx_active_progress cfg m Hst Hnb Hbc) as [A|(A & B & C & D)].
    + exists 1%nat. split; [lia|exact A].
    + assert (Hd' : d = Z.to_nat (num_bytes (ctrl (isr_fifo_event cfg m))
                                  - bytecount (ctrl (isr_fifo_event cfg m))))
        by (rewrite C, D; lia).
      assert (Hnb' : num_bytes (ctrl (isr_fifo_event cfg m)) < 2 ^ counter_bits cfg)
        by (rewrite D; exact Hnb).
      assert (Hbc' : 0 <= bytecount (ctrl (isr_fifo_event cfg m)))
        by (rewrite C; lia).
      destruct (IH (isr_fifo_event cfg m) Hd' A Hnb' Hbc') as (k & Hk & Hidle).
      exists (S k). split; [rewrite C, D in Hk; lia|exact Hidle].
Qed.

(** ** Ticks and the interrupt mask *)

Lemma tick_without_packet cfg m :
  txstate (ctrl m) <> STATUS_OCCUPIED ->
  ctrl (rfm12_tick cfg m) = ctrl m /\
  written (bus (rfm12_tick cfg m)) = written (bus m) /\
  rf_tx_buffer (rfm12_tick cfg m) = rf_tx_buffer m /\
  rx_buffer0 (rfm12_tick cfg m) = rx_buffer0 m /\
  rx_buffer1 (rfm12_tick cfg m) = rx_buffer1 m.
Proof.
  intros Hq.
  destruct m as [[st tx nb bc bi bo] t r0 r1 ck0 cf [fl ff sr w ie] p o].
  simpl in Hq. unfold rfm12_tick, tick_start_tx. state_unfold.
  destruct st; auto. destruct sr as [|s sr]; tick_cases; auto; congruence.
Qed.

(** With no packet queued, ticks only read the status register: however many
    of them run, and whatever the carrier bit reads, nothing is written to
    the chip, and [ctrl] and the three buffers stay as they are. *)
Theorem ticks_silent_without_packet cfg k m :
  txstate (ctrl m) <> STATUS_OCCUPIED ->
  ctrl (run_ticks cfg k m) = ctrl m /\
  written (bus (run_ticks cfg k m)) = written (bus m) /\
  rf_tx_buffer (run_ticks cfg k m) = rf_tx_buffer m /\
  rx_buffer0 (run_ticks cfg k m) = rx_buffer0 m /\
  rx_buffer1 (run_ticks cfg k m) = rx_buffer1 m.
Proof.
  revert m. induction k as [|k IH]; intros m Hq; [repeat split|].
  destruct (tick_without_packet cfg m Hq) as (Hc & Hw & Ht & H0 & H1).
  simpl. destruct (IH (rfm12_tick cfg m)) as (Hc' & Hw' & Ht' & H0' & H1').
  { rewrite Hc. exact Hq. }
  repeat split; congruence.
Qed.

Lemma ticks_silent_without_packet_witness :
  ctrl (run_ticks stock 5 listening_machine) = ctrl listening_machine /\
  written (bus (run_ticks stock 5 listening_machine)) = written (bus listening_machine) /\
  rf_tx_buffer (run_ticks stock 5 listening_machine) = rf_tx_buffer listening_machine /\
  rx_buffer0 (run_ticks stock 5 listening_machine) = rx_buffer0 listening_machine /\
  rx_buffer1 (run_ticks stock 5 listening_machine) = rx_buffer1 listening_machine.
Proof. apply (ticks_silent_without_packet stock 5 listening_machine); by_evaluation. Defined.

Lemma exec_int_enabled cfg c m :
  int_enabled (bus m) = true -> int_enabled (bus (exec cfg c m)) = true.
Proof.
  intros He. destruct c as [| |len type data|type len|]; simpl.
  - rewrite rfm12_poll_handle. reflexivity.
  - destruct m as [[st tx nb bc bi bo] t r0 r1 ck0 cf [fl ff sr w ie] p o].
    simpl in He. unfold rfm12_tick, tick_start_tx. state_unfold.
    destruct st; auto. destruct sr as [|s sr]; tick_cases; auto.
  - destruct m as [[st tx nb bc bi bo] t r0 r1 ck0 cf [fl ff sr w ie] p o].
    simpl in He. unfold rfm12_tx, rfm12_start_tx. state_unfold.
    destruct (RFM12_TX_BUFFER_SIZE cfg <? len), tx; simpl; assumption.
  - destruct m as [[st tx nb bc bi bo] t r0 r1 ck0 cf [fl ff sr w ie] p o].
    simpl in He. unfold rfm12_start_tx. state_unfold.
    destruct tx; simpl; assumption.
  - destruct m as [[st tx nb bc bi bo] t r0 r1 ck0 cf [fl ff sr w ie] p o].
    simpl in He. unfold rfm12_rx_clear. state_unfold. destruct (bo =? 0); assumption.
Qed.

(** Every entry point that masks the interrupt unmasks it before it returns,
    on every path: after [rfm12_init], whatever sequence of calls follows,
    the interrupt is enabled. *)
Theorem interrupt_left_enabled cfg calls m :
  int_enabled (bus (run_calls cfg calls (rfm12_init cfg m))) = true.
Proof.
  assert (H : int_enabled (bus (rfm12_init cfg m)) = true) by reflexivity.
  revert H. generalize (rfm12_init cfg m). clear m.
  induction calls as [|c calls IH]; intros m H; simpl; [exact H|].
  apply IH, exec_int_enabled, H.
Qed.

(** ** The further properties at concrete inputs *)

Lemma transmit_completes_witness :
  let final := run_polls stock 10
                 (rfm12_tick stock (snd (rfm12_tx stock 3 5 [1; 2; 3] tx_ready_machine))) in
  rfm12_state (ctrl final) = STATE_RX_IDLE /\
  txstate (ctrl final) = STATUS_FREE /\
  (exists sent,
     written (bus final) =
     written (bus tx_ready_machine) ++ sent ++
     [CMD_PWRMGT_RECEIVE; CMD_TX 170; CMD_FIFORESET_CLEAR; CMD_FIFORESET_ACCEPT]) /\
  (forall len' type' data',
     len' <= RFM12_TX_BUFFER_SIZE stock ->
     fst (rfm12_tx stock len' type' data' final) = RFM12_TX_ENQUEUED).
Proof.
  apply (transmit_completes stock tx_ready_machine 5 3 [1; 2; 3]); by_evaluation.
Defined.

Lemma trailer_is_stale_buffer_byte_witness :
  tx_bytes (written (bus (run_polls stock 10
     (rfm12_tick stock (snd (rfm12_tx stock 3 5 [1; 2; 3] tx_ready_machine))))))
  = [170; 170] ++ frame 45 212 3 5 [1; 2; 3] 0.
Proof.
  apply (trailer_is_stale_buffer_byte stock tx_ready_machine 5 3 [1; 2; 3] 0);
    by_evaluation.
Defined.

Lemma countdown_from_any_value_witness :
  rfm12_state (ctrl (run_ticks stock 16 boot_machine)) = STATE_RX_IDLE /\
  rfm12_state (ctrl (run_ticks stock 17 boot_machine)) = STATE_TX.
Proof.
  destruct (countdown_from_any_value stock boot_machine) as [H1 H2]; try by_evaluation.
  split; [apply (H1 16%nat); by_evaluation|exact H2].
Defined.

Lemma no_overrun_under_calls_witness :
  rx_safe stock (run_calls stock [CallPoll; CallRxClear; CallTick] long_packet_machine).
Proof.
  apply (no_overrun_under_calls stock [CallPoll; CallRxClear; CallTick] long_packet_machine);
    by_evaluation.
Defined.

Lemma double_buffer_two_frames_witness :
  let r := two_frames_machine in
  let r' := run_polls stock (length (int_flags (bus r))) r in
  let first := rf_rx_buffers (buffer_in_num (ctrl r)) r' in
  let second := rf_rx_buffers (Z.lxor (buffer_in_num (ctrl r)) 1) r' in
  (rx_status first = STATUS_COMPLETE /\ rx_len first = 2 /\ rx_type first = 1 /\
   take (length [7; 8]) (rx_buffer first) = [7; 8]) /\
  (rx_status second = STATUS_COMPLETE /\ rx_len second = 1 /\ rx_type second = 3 /\
   take (length [9]) (rx_buffer second) = [9]) /\
  rfm12_state (ctrl r') = STATE_RX_IDLE /\
  buffer_in_num (ctrl r') = buffer_in_num (ctrl r).
Proof.
  apply (double_buffer_two_frames stock two_frames_machine 2 1 [7; 8] 0 1 3 [9] 0);
    by_evaluation_ext.
Defined.

Lemma receive_then_clear_witness :
  let r := one_frame_machine in
  let i := buffer_in_num (ctrl r) in
  let r1 := run_polls stock (length (int_flags (bus r))) r in
  let r2 := rfm12_rx_clear r1 in
  (buffer_out_num (ctrl r1) = i /\ rx_status (rf_rx_buffers i r1) = STATUS_COMPLETE) /\
  (rx_status (rf_rx_buffers i r2) = STATUS_FREE /\
   rx_len (rf_rx_buffers i r2) = 2 /\
   take (length [7; 8]) (rx_buffer (rf_rx_buffers i r2)) = [7; 8]) /\
  buffer_out_num (ctrl r2) = Z.lxor i 1 /\
  buffer_in_num (ctrl r2) = Z.lxor i 1.
Proof.
  apply (receive_then_clear stock one_frame_machine 2 1 [7; 8] 0); by_evaluation_ext.
Defined.

Lemma stray_rx_clear_hides_packet_witness :
  let r := one_frame_machine in
  let i := buffer_in_num (ctrl r) in
  let r1 := rfm12_rx_clear r in
  let r2 := run_polls stock (length (int_flags (bus r1))) r1 in
  rx_status (rf_rx_buffers i r2) = STATUS_COMPLETE /\
  buffer_out_num (ctrl r2) = Z.lxor i 1 /\
  rx_status (rf_rx_buffers (buffer_out_num (ctrl r2)) r2) = STATUS_FREE.
Proof.
  apply (stray_rx_clear_hides_packet stock one_frame_machine 2 1 [7; 8] 0);
    by_evaluation_ext.
Defined.

Lemma oversize_frame_truncated_witness :
  let r := long_packet_machine in
  let r' := run_polls stock (length (int_flags (bus r))) r in
  let slot := rf_rx_buffers (buffer_in_num (ctrl r)) r' in
  rx_status slot = STATUS_COMPLETE /\
  rx_len slot = 40 /\
  rx_type slot = 7 /\
  rx_buffer slot = take (Z.to_nat (RFM12_RX_BUFFER_SIZE stock)) (replicate 40 1) /\
  rx_overrun r' = rx_overrun r /\
  rfm12_state (ctrl r') = STATE_RX_IDLE.
Proof.
  apply (oversize_frame_truncated stock long_packet_machine 40 7 (replicate 40 1) 1);
    by_evaluation.
Defined.

Lemma reception_terminates_witness :
  exists k,
    (Z.of_nat k <= Z.max 0 (num_bytes (ctrl active_machine)
                            - bytecount (ctrl active_machine)) + 1) /\
    rfm12_state (ctrl (handle stock k active_machine)) = STATE_RX_IDLE.
Proof. apply (reception_terminates stock active_machine); by_evaluation. Defined.
